(** * Knowledge-graph builder and batch repository processor

    A shallow embedding of [rollout/utils/kg_builder.py] (file types,
    processors, [UnifiedKnowledgeGraphBuilder]) and of
    [rollout/src/batch_repo_processor.py] (sequential and parallel batch
    drivers, summary statistics), with [generate_repo_documentation] of
    [rollout/src/context_doc_generator.py] as the unit of work.

    Python methods that mutate [self] or may raise are written in a small
    state-and-exception monad [Py]; [try: ... except Exception] is
    [try_except].  Paths are [pathlib] part lists, the file tree is an
    inductive type and [Path.rglob] walks it in listing order. *)

From Stdlib Require Import Ascii String List Bool Arith Lia ZArith Permutation.
From stdpp Require Import gmap strings.
Import ListNotations.
Local Open Scope string_scope.
Local Open Scope list_scope.

(** ** Strings and paths *)

Module PyStr.

(** [str.startswith] *)
Definition startswith (s p : string) : bool := String.prefix p s.

(** [str.endswith] *)
Definition endswith (s suf : string) : bool :=
  (String.length suf <=? String.length s)%nat
  && String.eqb (substring (String.length s - String.length suf)
                           (String.length suf) s) suf.

(** [str.rfind] for a one-character needle; [None] is Python's [-1]. *)
Fixpoint rfind (c : ascii) (s : string) : option nat :=
  match s with
  | EmptyString => None
  | String a s' =>
      match rfind c s' with
      | Some i => Some (S i)
      | None => if Ascii.eqb a c then Some 0%nat else None
      end
  end.

(** [str.lower] on the ASCII letters; other bytes are kept.  None of the
    extensions of [FileType] is reached from a non-ASCII letter. *)
Definition lower_ascii (c : ascii) : ascii :=
  let n := nat_of_ascii c in
  if (65 <=? n)%nat && (n <=? 90)%nat then ascii_of_nat (n + 32) else c.

Fixpoint lower (s : string) : string :=
  match s with
  | EmptyString => EmptyString
  | String a s' => String (lower_ascii a) (lower s')
  end.

(** [x in xs] for a list of strings *)
Definition mem (x : string) (xs : list string) : bool :=
  existsb (String.eqb x) xs.

End PyStr.

(** A [pathlib.Path] is its tuple of [parts], relative to the working
    directory. *)
Abbreviation Path := (list string).

Module PyPath.

(** [Path.name]: the last part, or the empty string. *)
Definition name (p : Path) : string := List.last p "".

(** [Path.suffix]: [name[i:]] for [i = name.rfind('.')] when
    [0 < i < len(name) - 1], else the empty string. *)
Definition suffix_of_name (nm : string) : string :=
  match PyStr.rfind "." nm with
  | Some i =>
      if (0 <? i)%nat && (i <? String.length nm - 1)%nat
      then substring i (String.length nm - i) nm
      else ""
  | None => ""
  end.

Definition suffix (p : Path) : string := suffix_of_name (name p).

(** [str(path)] *)
Definition str (p : Path) : string :=
  match p with
  | [] => "."
  | _ => String.concat "/" p
  end.

(** [path / child] *)
Definition join (p : Path) (child : string) : Path := p ++ [child].

End PyPath.

(** ** The file tree and [Path.glob] / [Path.rglob] *)

#[warnings="-register-all"]
Inductive node : Type :=
| File (name : string)
| Dir (name : string) (children : list node).

Definition node_name (n : node) : string :=
  match n with File nm => nm | Dir nm _ => nm end.

Module FS.

(** The entries of a directory, in the order the system lists them. *)
Definition find_entry (nm : string) (ns : list node) : option node :=
  List.find (fun n => String.eqb (node_name n) nm) ns.

(** The listing of the directory at [p] below a listing [ns]. *)
Fixpoint listdir (ns : list node) (p : Path) : option (list node) :=
  match p with
  | [] => Some ns
  | d :: rest =>
      match find_entry d ns with
      | Some (Dir _ cs) => listdir cs rest
      | _ => None
      end
  end.

(** [Path.exists] *)
Fixpoint exists_ (ns : list node) (p : Path) : bool :=
  match p with
  | [] => true
  | [nm] => match find_entry nm ns with Some _ => true | None => false end
  | d :: rest =>
      match find_entry d ns with
      | Some (Dir _ cs) => exists_ cs rest
      | _ => false
      end
  end.

(** The children of [here] whose name the pattern accepts. *)
Definition matching (pat : string -> bool) (here : Path) (ns : list node)
  : list Path :=
  List.map (fun n => PyPath.join here (node_name n))
           (List.filter (fun n => pat (node_name n)) ns).

(** [rglob]: the matches of a directory first, then those of each
    sub-directory in listing order. *)
Fixpoint rglob_node (pat : string -> bool) (parent : Path) (n : node)
  : list Path :=
  match n with
  | File _ => []
  | Dir d cs =>
      matching pat (PyPath.join parent d) cs
      ++ List.flat_map (rglob_node pat (PyPath.join parent d)) cs
  end.

Definition rglob_nodes (pat : string -> bool) (here : Path) (ns : list node)
  : list Path :=
  matching pat here ns ++ List.flat_map (rglob_node pat here) ns.

(** The pattern [f"*{ext}"] for an extension without wildcard
    characters: the name ends with [ext]. *)
Definition star (ext : string) : string -> bool :=
  fun nm => PyStr.endswith nm ext.

(** [directory.rglob(pattern)] and [directory.glob(pattern)] on the tree
    [fs]; a directory that does not exist yields nothing. *)
Definition rglob (fs : list node) (directory : Path) (pat : string -> bool)
  : list Path :=
  match listdir fs directory with
  | Some ns => rglob_nodes pat directory ns
  | None => []
  end.

Definition glob (fs : list node) (directory : Path) (pat : string -> bool)
  : list Path :=
  match listdir fs directory with
  | Some ns => matching pat directory ns
  | None => []
  end.

End FS.

(** ** Exceptions and the [Py] monad *)

(** An instance of [Exception]: its class name and [str(e)]. *)
Record exn : Type := Exn { exn_class : string; exn_str : string }.

Inductive outcome (A : Type) : Type :=
| Ret (a : A)
| Raise (e : exn).
Arguments Ret {A} a.
Arguments Raise {A} e.

(** A method over the state [S] of [self]: it returns or raises, and leaves
    a state behind either way. *)
Definition Py (S A : Type) : Type := S -> outcome A * S.

Section PyMonad.
Context {S : Type}.

Definition ret {A} (a : A) : Py S A := fun s => (Ret a, s).

Definition raise {A} (e : exn) : Py S A := fun s => (Raise e, s).

Definition bind {A B} (m : Py S A) (k : A -> Py S B) : Py S B :=
  fun s =>
    match m s with
    | (Ret a, s') => k a s'
    | (Raise e, s') => (Raise e, s')
    end.

Definition get : Py S S := fun s => (Ret s, s).

Definition modify (f : S -> S) : Py S unit := fun s => (Ret tt, f s).

(** A call that touches no state of [self]. *)
Definition call {A} (r : outcome A) : Py S A := fun s => (r, s).

(** [try: body  except Exception as e: handler e] *)
Definition try_except {A} (body : Py S A) (handler : exn -> Py S A) : Py S A :=
  fun s =>
    match body s with
    | (Ret a, s') => (Ret a, s')
    | (Raise e, s') => handler e s'
    end.

(** [for x in xs: body x] *)
Fixpoint for_each {A} (xs : list A) (body : A -> Py S unit) : Py S unit :=
  match xs with
  | [] => ret tt
  | x :: rest => bind (body x) (fun _ => for_each rest body)
  end.

End PyMonad.

Notation "x <- m ;; k" := (bind m (fun x => k))
  (at level 100, m at next level, right associativity).
Notation "m ;;; k" := (bind m (fun _ => k))
  (at level 100, right associativity).

(** ** Data model of [kg_builder.py] *)

(** Entities and relationships are dictionaries; the keys read by the
    builder are ['type'], ['name'], ['from'] and ['to']. *)
Abbreviation Entity := (gmap string string).
Abbreviation Relationship := (gmap string string).

(** The ['metadata'] value of an extraction result: a dictionary or
    [None]. *)
Inductive Meta : Type :=
| MetaNone
| MetaDict (m : gmap string string).

(** The dictionary returned by [extract_knowledge].  The builder reads
    the keys ['entities'], ['relationships'] and ['metadata'] with
    [dict.get]; the remaining keys (['source_file'], ['file_type'],
    ['converted_py']) are kept in [d_fields]. *)
Record KgDict : Type := {
  d_entities : option (list Entity);
  d_relationships : option (list Relationship);
  d_metadata : option Meta;
  d_fields : gmap string (option string)
}.

(** Truth value of a dictionary: it is not empty. *)
Definition truthy (d : KgDict) : bool :=
  negb (match d_entities d, d_relationships d, d_metadata d with
        | None, None, None => bool_decide (d_fields d = ∅)
        | _, _, _ => false
        end).

(** [kg_data.get('entities', [])] and its siblings *)
Definition get_entities (d : KgDict) : list Entity :=
  match d_entities d with Some es => es | None => [] end.
Definition get_relationships (d : KgDict) : list Relationship :=
  match d_relationships d with Some rs => rs | None => [] end.
Definition get_metadata (d : KgDict) : Meta :=
  match d_metadata d with Some m => m | None => MetaDict ∅ end.

(** [self.kg_data] *)
Record KG : Type := {
  entities : list Entity;
  relationships : list Relationship;
  metadata : gmap string Meta;
  files_processed : list string
}.

Definition empty_kg : KG :=
  {| entities := []; relationships := []; metadata := ∅;
     files_processed := [] |}.

(** [class FileType(Enum)], in definition order. *)
Inductive FileType : Type :=
| PYTHON | JUPYTER | SQL | JAVASCRIPT | TYPESCRIPT | WORD | POWERPOINT | EXCEL.

Definition all_file_types : list FileType :=
  [PYTHON; JUPYTER; SQL; JAVASCRIPT; TYPESCRIPT; WORD; POWERPOINT; EXCEL].

Definition value (ft : FileType) : list string :=
  match ft with
  | PYTHON => [".py"]
  | JUPYTER => [".ipynb"]
  | SQL => [".sql"]
  | JAVASCRIPT => [".js"; ".jsx"]
  | TYPESCRIPT => [".ts"; ".tsx"]
  | WORD => [".docx"]
  | POWERPOINT => [".pptx"]
  | EXCEL => [".xlsx"; ".xls"; ".csv"]
  end.

(** [FileType.from_extension] *)
Definition from_extension (extension : string) : option FileType :=
  let extension := PyStr.lower extension in
  List.find (fun file_type => PyStr.mem extension (value file_type))
            all_file_types.

(** ** Processors *)

(** [class FileProcessor(ABC)] *)
Record FileProcessor : Type := {
  class_name : string;
  can_process : Path -> bool;
  extract_knowledge : Path -> outcome KgDict;
  get_supported_extensions : list string
}.

(** The literal dictionary returned by the placeholder extractors. *)
Definition placeholder_dict (file_path : Path) (file_type : string) : KgDict :=
  {| d_entities := Some [];
     d_relationships := Some [];
     d_metadata := None;
     d_fields := <["source_file" := Some (PyPath.str file_path)]>
                 (<["file_type" := Some file_type]> ∅) |}.

Definition PythonProcessor : FileProcessor :=
  {| class_name := "PythonProcessor";
     can_process := fun file_path => String.eqb (PyPath.suffix file_path) ".py";
     extract_knowledge := fun file_path => Ret (placeholder_dict file_path "python");
     get_supported_extensions := [".py"] |}.

Definition SQLProcessor : FileProcessor :=
  {| class_name := "SQLProcessor";
     can_process := fun file_path => String.eqb (PyPath.suffix file_path) ".sql";
     extract_knowledge := fun file_path => Ret (placeholder_dict file_path "sql");
     get_supported_extensions := [".sql"] |}.

Definition JavaScriptProcessor : FileProcessor :=
  {| class_name := "JavaScriptProcessor";
     can_process := fun file_path =>
       PyStr.mem (PyPath.suffix file_path) [".js"; ".jsx"; ".ts"; ".tsx"];
     extract_knowledge := fun file_path =>
       Ret (placeholder_dict file_path "javascript");
     get_supported_extensions := [".js"; ".jsx"; ".ts"; ".tsx"] |}.

Definition office_supported : list string := [".docx"; ".pptx"; ".xlsx"; ".xls"].

Definition OfficeDocumentProcessor : FileProcessor :=
  {| class_name := "OfficeDocumentProcessor";
     can_process := fun file_path =>
       PyStr.mem (PyPath.suffix file_path) office_supported;
     extract_knowledge := fun file_path =>
       let sfx := PyPath.suffix file_path in
       Ret (placeholder_dict file_path
              ("office_" +:+ substring 1 (String.length sfx - 1) sfx));
     get_supported_extensions := office_supported |}.

(** [NotebookConverter] of [kg_from_ipy.py], as [JupyterProcessor] uses it.
    Both methods catch every [Exception] themselves and return [None]
    instead; [converted_exists] is [py_file.exists()] after the
    conversion. *)
Record NotebookConverter : Type := {
  convert_single_notebook : Path -> option Path;
  extract_notebook_metadata : Path -> Meta;
  converted_exists : Path -> bool
}.

(** [JupyterProcessor._build_python_kg] *)
Definition _build_python_kg (py_file : Path) : KgDict :=
  {| d_entities := Some []; d_relationships := Some [];
     d_metadata := None; d_fields := ∅ |}.

Definition JupyterProcessor (converter : NotebookConverter) : FileProcessor :=
  {| class_name := "JupyterProcessor";
     can_process := fun file_path => String.eqb (PyPath.suffix file_path) ".ipynb";
     extract_knowledge := fun file_path =>
       let py_file := convert_single_notebook converter file_path in
       let md := extract_notebook_metadata converter file_path in
       let extra :=
         match py_file with
         | Some py =>
             if converted_exists converter py
             then Some (_build_python_kg py)
             else None
         | None => None
         end in
       Ret {| d_entities :=
                Some ([] ++ match extra with
                            | Some py_kg => get_entities py_kg
                            | None => []
                            end);
              d_relationships :=
                Some ([] ++ match extra with
                            | Some py_kg => get_relationships py_kg
                            | None => []
                            end);
              d_metadata := Some md;
              d_fields :=
                <["source_file" := Some (PyPath.str file_path)]>
                (<["file_type" := Some "jupyter_notebook"]>
                (<["converted_py" := option_map PyPath.str py_file]> ∅)) |};
     get_supported_extensions := [".ipynb"] |}.

(** ** [UnifiedKnowledgeGraphBuilder] *)

(** The attributes of the builder object. *)
Record Builder : Type := {
  processors : list FileProcessor;
  kg_data : KG
}.

Definition set_kg (f : KG -> KG) (b : Builder) : Builder :=
  {| processors := processors b; kg_data := f (kg_data b) |}.

(** [self.kg_data['files_processed'].append(path)] *)
Definition append_file (path : string) (kg : KG) : KG :=
  {| entities := entities kg;
     relationships := relationships kg;
     metadata := metadata kg;
     files_processed := files_processed kg ++ [path] |}.

(** The three statements under [# Merge into main KG]. *)
Definition merge (file_path : Path) (d : KgDict) (kg : KG) : KG :=
  {| entities := entities kg ++ get_entities d;
     relationships := relationships kg ++ get_relationships d;
     metadata := <[PyPath.str file_path := get_metadata d]> (metadata kg);
     files_processed := files_processed kg |}.

(** [register_processor]: [self.processors.append(processor)] *)
Definition register_processor (processor : FileProcessor) : Py Builder unit :=
  modify (fun b => {| processors := processors b ++ [processor];
                      kg_data := kg_data b |}).

Definition register_default_processors (converter : NotebookConverter)
  : Py Builder unit :=
  register_processor PythonProcessor ;;;
  register_processor (JupyterProcessor converter) ;;;
  register_processor SQLProcessor ;;;
  register_processor JavaScriptProcessor ;;;
  register_processor OfficeDocumentProcessor.

(** [__init__].  The module [kg_builder.py] uses [NotebookConverter]
    without importing it from [kg_from_ipy.py]; the converter is taken as
    an argument here. *)
Definition init (converter : NotebookConverter) : Builder :=
  let b := snd (register_default_processors converter
                  {| processors := []; kg_data := empty_kg |}) in
  {| processors := processors b; kg_data := empty_kg |}.

(** [get_processor]: the loop returns at the first processor that accepts
    the file. *)
Definition get_processor (file_path : Path)
  : Py Builder (option FileProcessor) :=
  b <- get ;;
  ret (List.find (fun processor => can_process processor file_path)
                 (processors b)).

(** A path component that starts with a dot. *)
Definition hidden (f : Path) : bool :=
  existsb (fun part => PyStr.startswith part ".") f.

(** What files were written, the observable effect of an export. *)
Inductive written : Type :=
| JsonDump (path : string) (kg : KG)
| TextFile (path : string) (content : string).

(** [d[key]]: raises [KeyError] when the key is absent. *)
Definition getitem {S} (d : gmap string string) (key : string) : Py S string :=
  match d !! key with
  | Some v => ret v
  | None => raise (Exn "KeyError" ("'" +:+ key +:+ "'"))
  end.

(** [for x in xs: out.append(f x)] where [f] may raise *)
Fixpoint collect {S A B} (f : A -> Py S B) (xs : list A) : Py S (list B) :=
  match xs with
  | [] => ret []
  | x :: rest => y <- f x ;; ys <- collect f rest ;; ret (y :: ys)
  end.

Definition newline : string := String (ascii_of_nat 10) EmptyString.

(** Counters: [counts[k] = counts.get(k, 0) + 1] *)
Definition bump (counts : gmap string nat) (k : string) : gmap string nat :=
  <[k := (default 0 (counts !! k) + 1)%nat]> counts.

(** [Path(s).suffix] for a path given as a string: the suffix of what
    follows the last separator. *)
Definition suffix_of_str (s : string) : string :=
  match PyStr.rfind "/" s with
  | Some i => PyPath.suffix_of_name (substring (S i) (String.length s - S i) s)
  | None => PyPath.suffix_of_name s
  end.

(** The dictionary returned by [get_statistics]. *)
Record Statistics : Type := {
  total_files : nat;
  total_entities : nat;
  total_relationships : nat;
  file_types : gmap string nat;
  entity_types : gmap string nat
}.

(** [entity.get('type', 'unknown')] *)
Definition entity_type (entity : Entity) : string :=
  default "unknown" (entity !! "type").

Definition _count_file_types (b : Builder) : gmap string nat :=
  fold_left (fun counts file_path => bump counts (suffix_of_str file_path))
            (files_processed (kg_data b)) ∅.

Definition _count_entity_types (b : Builder) : gmap string nat :=
  fold_left (fun counts entity => bump counts (entity_type entity))
            (entities (kg_data b)) ∅.

Definition get_statistics (b : Builder) : Statistics :=
  {| total_files := length (files_processed (kg_data b));
     total_entities := length (entities (kg_data b));
     total_relationships := length (relationships (kg_data b));
     file_types := _count_file_types b;
     entity_types := _count_entity_types b |}.

Section Environment.

(** The file tree below the working directory, and the outcome of opening
    a path for writing ([None]: the file is opened). *)
Variable fs : list node.
Variable open_for_write : string -> option exn.

Definition open_w {S} (path : string) : Py S unit :=
  match open_for_write path with
  | None => ret tt
  | Some e => raise e
  end.

(** [process_file] *)
Definition process_file (file_path : Path) : Py Builder (option KgDict) :=
  if negb (FS.exists_ fs file_path) then ret None
  else
    processor <- get_processor file_path ;;
    match processor with
    | None => ret None
    | Some processor =>
        try_except
          (kg_data <- call (extract_knowledge processor file_path) ;;
           modify (set_kg (append_file (PyPath.str file_path))) ;;;
           ret (Some kg_data))
          (fun e => ret None)
    end.

(** The extensions searched by [process_directory]: those of the given
    file types, or of every registered processor when [file_types] is
    [None] or empty. *)
Definition search_extensions (file_types : option (list FileType))
  (b : Builder) : list string :=
  match file_types with
  | Some (ft :: fts) => List.flat_map value (ft :: fts)
  | _ => List.flat_map get_supported_extensions (processors b)
  end.

(** The list [files] of [process_directory] after the filter. *)
Definition find_files (directory : Path) (recursive : bool)
  (extensions : list string) : list Path :=
  let files :=
    if recursive
    then List.flat_map (fun ext => FS.rglob fs directory (FS.star ext)) extensions
    else List.flat_map (fun ext => FS.glob fs directory (FS.star ext)) extensions in
  List.filter (fun f => negb (hidden f)) files.

(** The body of the loop over [files]. *)
Definition process_one (file_path : Path) : Py Builder unit :=
  kg_data <- process_file file_path ;;
  match kg_data with
  | Some d =>
      if truthy d then modify (set_kg (merge file_path d)) else ret tt
  | None => ret tt
  end.

(** [process_directory]; it returns [self.kg_data]. *)
Definition process_directory (directory : Path) (recursive : bool)
  (file_types : option (list FileType)) : Py Builder KG :=
  b <- get ;;
  let extensions := search_extensions file_types b in
  let files := find_files directory recursive extensions in
  for_each files process_one ;;;
  b' <- get ;;
  ret (kg_data b').

(** [_export_to_neo4j] *)
Definition _export_to_neo4j (output_path : string) : Py Builder (list written) :=
  b <- get ;;
  nodes <- collect (fun entity =>
             ty <- getitem entity "type" ;;
             nm <- getitem entity "name" ;;
             ret ("CREATE (:" +:+ ty +:+ " {name: '" +:+ nm +:+ "', ...})"))
           (entities (kg_data b)) ;;
  edges <- collect (fun rel =>
             src <- getitem rel "from" ;;
             dst <- getitem rel "to" ;;
             ty <- getitem rel "type" ;;
             ret ("MATCH (a), (b) WHERE a.name='" +:+ src +:+ "' AND b.name='"
                  +:+ dst +:+ "' CREATE (a)-[:" +:+ ty +:+ "]->(b)"))
           (relationships (kg_data b)) ;;
  open_w output_path ;;;
  ret [TextFile output_path (String.concat newline (nodes ++ edges))].

(** [_export_to_graphml]: [pass] *)
Definition _export_to_graphml (output_path : string) : Py Builder (list written) :=
  ret [].

(** [export_kg]; the value is the list of files it wrote.  A format that
    is none of the three falls through the [if]/[elif] chain. *)
Definition export_kg (output_path : string) (format : string)
  : Py Builder (list written) :=
  if String.eqb format "json" then
    open_w output_path ;;;
    b <- get ;;
    ret [JsonDump output_path (kg_data b)]
  else if String.eqb format "neo4j" then
    _export_to_neo4j output_path
  else if String.eqb format "graphml" then
    _export_to_graphml output_path
  else
    ret [].

End Environment.

(** ** [BatchRepoDocumentationGenerator] *)

(** A result dictionary of the batch: the keys ['duration_seconds'] and
    ['docs'] exist on success only, ['error'] on failure only.  Durations
    and timestamps are clock readings, here in ticks. *)
Record RepoResult : Type := {
  repo : string;
  repo_name : string;
  status : string;
  duration_seconds : option Z;
  docs : option (list (string * string));
  error : option string;
  timestamp : Z
}.

(** The clock readings of one run, by position of the repository in the
    submitted list. *)
Record Timing : Type := {
  elapsed : nat -> Z;
  stamp : nat -> Z
}.

(** The process pool of one parallel run: the order in which
    [as_completed] yields the submitted futures, and the exception (if
    any) that [future.result()] raises for a future instead of delivering
    the value of its task. *)
Record Pool : Type := {
  completion : list nat;
  fault : nat -> option exn
}.

Definition success_result (t : Timing) (i : nat) (r : Path)
  (ds : list (string * Path)) : RepoResult :=
  {| repo := PyPath.str r;
     repo_name := PyPath.name r;
     status := "success";
     duration_seconds := Some (elapsed t i);
     docs := Some (List.map (fun kv => (fst kv, PyPath.str (snd kv))) ds);
     error := None;
     timestamp := stamp t i |}.

Definition failed_result (t : Timing) (i : nat) (r : Path) (e : exn)
  : RepoResult :=
  {| repo := PyPath.str r;
     repo_name := PyPath.name r;
     status := "failed";
     duration_seconds := None;
     docs := None;
     error := Some (exn_str e);
     timestamp := stamp t i |}.

Definition is_success (r : RepoResult) : bool := String.eqb (status r) "success".
Definition is_failed (r : RepoResult) : bool := String.eqb (status r) "failed".

(** [_print_summary]: the two counts it prints. *)
Definition success_count (results : list RepoResult) : nat :=
  length (List.filter is_success results).

Definition failed_count (results : list RepoResult) : nat :=
  length results - success_count results.

(** [generate_summary_report]: the ['metadata'] counts, and
    ['total_docs_generated'] of [_calculate_statistics].  The average,
    minimum and maximum durations of that method are clock values and are
    not part of this record. *)
Record Summary : Type := {
  total_repos : nat;
  successful : nat;
  failed : nat;
  total_docs_generated : nat
}.

Definition _total_docs_generated (results : list RepoResult) : nat :=
  let successful_results := List.filter is_success results in
  match successful_results with
  | [] => 0%nat
  | _ =>
      list_sum (List.map (fun r => match docs r with
                                   | Some ds => length ds
                                   | None => 0%nat
                                   end) successful_results)
  end.

Definition summary (results : list RepoResult) : Summary :=
  {| total_repos := length results;
     successful := length (List.filter is_success results);
     failed := length (List.filter is_failed results);
     total_docs_generated := _total_docs_generated results |}.

Section Batch.

(** The documentation generator held by the batch object: its state and
    its [generate_repo_documentation]. *)
Context {G : Type}.
Variable generate_repo_documentation : Path -> Py G (list (string * Path)).

(** The [try]/[except] around one repository, the same in
    [_process_sequential] and in [_process_single_repo]. *)
Definition _process_single_repo (t : Timing) (i : nat) (r : Path)
  : Py G RepoResult :=
  try_except
    (ds <- generate_repo_documentation r ;;
     ret (success_result t i r ds))
    (fun e => ret (failed_result t i r e)).

(** The loop of [_process_sequential] from position [i] on, with the
    results appended so far. *)
Fixpoint sequential_loop (t : Timing) (i : nat) (repos : list Path)
  (results : list RepoResult) : Py G (list RepoResult) :=
  match repos with
  | [] => ret results
  | r :: rest =>
      result <- _process_single_repo t i r ;;
      sequential_loop t (S i) rest (results ++ [result])
  end.

Definition _process_sequential (t : Timing) (repos : list Path)
  : Py G (list RepoResult) :=
  sequential_loop t 0 repos [].

(** What the collecting loop of [_process_parallel] appends for the
    future of submission [i]: the value of the task, which ran on a copy
    of the batch object as it was at submission, or a failed record when
    [future.result()] raises. *)
Definition collected (t : Timing) (pool : Pool) (g0 : G) (repos : list Path)
  (i : nat) : option RepoResult :=
  match nth_error repos i with
  | None => None
  | Some r =>
      Some match fault pool i with
           | Some e => failed_result t i r e
           | None =>
               match fst (_process_single_repo t i r g0) with
               | Ret result => result
               | Raise e => failed_result t i r e
               end
           end
  end.

Definition _process_parallel (t : Timing) (pool : Pool) (repos : list Path)
  : Py G (list RepoResult) :=
  fun g0 =>
    (Ret (omap (collected t pool g0 repos) (completion pool)), g0).

End Batch.

(** ** [ContextualDocumentationGenerator] *)

(** The documents, in the order [generate_repo_documentation] writes
    them. *)
Definition doc_names : list string :=
  ["CLAUDE.md"; "ARCHITECTURE.md"; "API_REFERENCE.md"; "TESTING_GUIDE.md";
   "DEPENDENCIES.md"; "AGENT_INSTRUCTIONS.md"].

Section Generator.

Variable fs : list node.
Variable open_for_write : string -> option exn.

(** One [_generate_*] method: the text is computed from the analysed
    graph, the file is opened for writing below the repository, and its
    path is returned.  The analysis and the formatting read dictionaries
    with string values only and raise nothing; the text itself is not
    modelled. *)
Definition write_doc (output_dir : Path) (doc : string)
  : Py Builder (string * Path) :=
  let output_path := PyPath.join output_dir doc in
  open_w open_for_write (PyPath.str output_path) ;;;
  ret (doc, output_path).

(** [generate_repo_documentation] with [output_dir = repo_path]; its state
    is the builder it was given. *)
Definition generate_repo_documentation (repo_path : Path)
  : Py Builder (list (string * Path)) :=
  kg <- process_directory fs repo_path true None ;;
  collect (write_doc repo_path) doc_names.

End Generator.

(** ** Specification-side notions *)

(** The number of entities of a given type in a sequence. *)
Definition multiplicity (ty : string) (es : list Entity) : nat :=
  length (List.filter (fun e => String.eqb (entity_type e) ty) es).

(** What running the resolved processor on a file gives: nothing when the
    file does not exist or no registered processor accepts it, else the
    outcome of that processor's [extract_knowledge]. *)
Definition extraction (fs : list node) (b : Builder) (f : Path)
  : option (outcome KgDict) :=
  if FS.exists_ fs f
  then option_map (fun p => extract_knowledge p f)
                  (List.find (fun p => can_process p f) (processors b))
  else None.

(** What one pass of the loop of [process_directory] leaves behind. *)
Definition after_file (fs : list node) (f : Path) (b : Builder) : Builder :=
  match extraction fs b f with
  | Some (Ret d) =>
      let b1 := set_kg (append_file (PyPath.str f)) b in
      if truthy d then set_kg (merge f d) b1 else b1
  | _ => b
  end.

(** ** Sample environments *)

(** A converter whose conversions all fail. *)
Definition null_converter : NotebookConverter :=
  {| convert_single_notebook := fun _ => None;
     extract_notebook_metadata := fun _ => MetaNone;
     converted_exists := fun _ => false |}.

(** Every file can be opened for writing. *)
Definition writable : string -> option exn := fun _ => None.

(** The tree of the directory-walk example. *)
Definition sample_tree : list node :=
  [Dir "root"
     [Dir ".git" [File "config"];
      Dir "a" [Dir ".ipynb_checkpoints" [File "x.ipynb"]; File "b.py"]]].

(** A repository with one file that cannot be read and two that can, and
    a processor for it: extraction yields one entity named after the
    file, and raises on [bad.py]. *)
Definition faulty_tree : list node :=
  [Dir "repo" [File "one.py"; File "bad.py"; File "two.py"]].

Definition NamingProcessor : FileProcessor :=
  {| class_name := "NamingProcessor";
     can_process := fun file_path => String.eqb (PyPath.suffix file_path) ".py";
     extract_knowledge := fun file_path =>
       if String.eqb (PyPath.name file_path) "bad.py"
       then Raise (Exn "UnicodeDecodeError" "invalid start byte")
       else Ret {| d_entities :=
                     Some [ {[ "type" := "module";
                               "name" := PyPath.name file_path ]} ];
                   d_relationships :=
                     Some [ {[ "type" := "defined_in";
                               "from" := PyPath.name file_path;
                               "to" := "repo" ]} ];
                   d_metadata := None;
                   d_fields := {[ "source_file" := Some (PyPath.str file_path) ]} |};
     get_supported_extensions := [".py"] |}.

Definition naming_builder : Builder :=
  {| processors := [NamingProcessor]; kg_data := empty_kg |}.

(** The paths that the globs of [process_directory] return before the
    filter, one glob after the other. *)
Definition globbed (fs : list node) (directory : Path) (recursive : bool)
  (extensions : list string) : list Path :=
  if recursive
  then List.flat_map (fun ext => FS.rglob fs directory (FS.star ext)) extensions
  else List.flat_map (fun ext => FS.glob fs directory (FS.star ext)) extensions.

(** Every path below a directory, in the order of the walk: what the
    pattern [*] returns. *)
Definition listed (fs : list node) (directory : Path) (recursive : bool)
  : list Path :=
  if recursive
  then FS.rglob fs directory (fun _ => true)
  else FS.glob fs directory (fun _ => true).

(** How many globs of the extension list match a path. *)
Definition globs_matching (extensions : list string) (f : Path) : nat :=
  length (List.filter (fun ext => FS.star ext (PyPath.name f)) extensions).

Definition Path_eq_dec : forall p q : Path, {p = q} + {p <> q} :=
  List.list_eq_dec String.string_dec.

(** Lexical order on paths: part by part, each part as a string. *)
Fixpoint path_leb (p q : Path) : bool :=
  match p, q with
  | [], _ => true
  | _ :: _, [] => false
  | x :: p', y :: q' =>
      match String.compare x y with
      | Lt => true
      | Gt => false
      | Eq => path_leb p' q'
      end
  end.

Fixpoint lexically_sorted (l : list Path) : bool :=
  match l with
  | [] => true
  | p :: rest =>
      match rest with
      | [] => true
      | q :: _ => path_leb p q && lexically_sorted rest
      end
  end.

(** Two files whose lexical order differs from the order of their
    extensions in the search list. *)
Definition two_file_tree : list node :=
  [Dir "root" [File "a.sql"; File "b.py"]].

Section BatchNotions.

Context {G : Type}.
Variable generate : Path -> Py G (list (string * Path)).

(** The record built from the outcome of the generator. *)
Definition result_of (t : Timing) (i : nat) (r : Path)
  (o : outcome (list (string * Path))) : RepoResult :=
  match o with
  | Ret ds => success_result t i r ds
  | Raise e => failed_result t i r e
  end.

(** The state of the generator when the sequential loop reaches
    position [k]. *)
Fixpoint state_at (g : G) (repos : list Path) (k : nat) : G :=
  match k, repos with
  | S k', r :: rest => state_at (snd (generate r g)) rest k'
  | _, _ => g
  end.

End BatchNotions.


(** Five repositories; opening a file below [r3] fails. *)
Definition five_repos : list Path := [["r1"]; ["r2"]; ["r3"]; ["r4"]; ["r5"]].

Definition five_trees : list node :=
  [Dir "r1" [File "a.py"]; Dir "r2" []; Dir "r3" [File "b.sql"];
   Dir "r4" [File "c.js"]; Dir "r5" [File "d.py"]].

Definition r3_read_only : string -> option exn :=
  fun p => if String.prefix "r3/" p
           then Some (Exn "PermissionError" "[Errno 13] Permission denied")
           else None.

(** A generator that runs out of memory on [r3]: [str(MemoryError())] is
    the empty string. *)
Definition exhausting_generator : Path -> Py unit (list (string * Path)) :=
  fun r => if String.eqb (PyPath.name r) "r3"
           then raise (Exn "MemoryError" "")
           else ret [("CLAUDE.md", PyPath.join r "CLAUDE.md")].

Definition no_clock : Timing := {| elapsed := fun _ => 0%Z; stamp := fun _ => 0%Z |}.

(** A pool that completes the five tasks in reverse order, without
    fault. *)
Definition reversing_pool : Pool :=
  {| completion := rev (seq 0 5); fault := fun _ => None |}.

(** The sum of a measure over the records that pass a test. *)
Fixpoint tally (h : RepoResult -> bool) (m : RepoResult -> nat)
  (l : list RepoResult) : nat :=
  match l with
  | [] => 0%nat
  | x :: rest => ((if h x then m x else 0) + tally h m rest)%nat
  end.

(** [len(r.get('docs', {}))] *)
Definition docs_len (r : RepoResult) : nat :=
  match docs r with Some ds => length ds | None => 0%nat end.


(** ** Further specification-side notions *)

(** The sum of the counts of a counter dictionary. *)
Definition counts_total (counts : gmap string nat) : nat :=
  map_fold (fun _ n acc => (n + acc)%nat) 0%nat counts.


(** A repository checked out below a hidden directory. *)
Definition hidden_root_tree : list node :=
  [Dir ".cache" [Dir "repo" [File "a.py"; Dir "pkg" [File "b.py"]]]].

(** The dictionary has all the given keys. *)
Definition has_keys (keys : list string) (d : gmap string string) : bool :=
  forallb (fun k => match d !! k with Some _ => true | None => false end) keys.

(** A graph can be written as Cypher statements when every entity has a
    ['type'] and a ['name'] and every relationship a ['from'], a ['to']
    and a ['type']. *)
Definition cypher_ready (kg : KG) : bool :=
  forallb (has_keys ["type"; "name"]) (entities kg)
  && forallb (has_keys ["from"; "to"; "type"]) (relationships kg).

(** A builder whose graph holds an entity without a name. *)
Definition nameless_builder : Builder :=
  {| processors := [];
     kg_data := {| entities := [ {[ "type" := "function"; "name" := "f" ]};
                                 {[ "type" := "class" ]} ];
                   relationships := [];
                   metadata := ∅;
                   files_processed := [] |} |}.

(** A builder whose graph has two entities and one relationship. *)
Definition small_graph_builder : Builder :=
  {| processors := [];
     kg_data := {| entities := [ {[ "type" := "function"; "name" := "f" ]};
                                 {[ "type" := "class"; "name" := "C" ]} ];
                   relationships := [ {[ "type" := "calls"; "from" := "f";
                                         "to" := "C" ]} ];
                   metadata := ∅;
                   files_processed := ["a.py"] |} |}.

(** No file can be opened for writing. *)
Definition read_only : string -> option exn :=
  fun _ => Some (Exn "PermissionError" "[Errno 13] Permission denied").

(** ** Repository discovery *)

(** [sorted(xs)] for a total order given by [leb]; equal elements keep
    their order. *)
Fixpoint insert_sorted {A} (leb : A -> A -> bool) (x : A) (l : list A)
  : list A :=
  match l with
  | [] => [x]
  | y :: rest => if leb x y then x :: l else y :: insert_sorted leb x rest
  end.

Definition sorted {A} (leb : A -> A -> bool) (l : list A) : list A :=
  fold_right (insert_sorted leb) [] l.

(** [needle in hay] for strings *)
Fixpoint contains (needle hay : string) : bool :=
  String.prefix needle hay
  || match hay with
     | EmptyString => false
     | String _ rest => contains needle rest
     end.

(** [Path.is_dir] *)
Definition is_dir (fs : list node) (p : Path) : bool :=
  match FS.listdir fs p with Some _ => true | None => false end.

(** [Path.parent] *)
Definition parent (p : Path) : Path := removelast p.

(** The test applied to one [.git] entry in [_find_git_repos]: it is a
    directory, and the name of its parent contains the filter when a
    non-empty filter is given. *)
Definition selected (fs : list node) (filter_pattern : option string)
  (item : Path) : bool :=
  is_dir fs item
  && match filter_pattern with
     | Some (String c pat) =>
         contains (String c pat) (PyPath.name (parent item))
     | _ => true
     end.

(** [_find_git_repos] *)
Definition _find_git_repos (fs : list node) (root : Path)
  (filter_pattern : option string) : list Path :=
  let items := FS.rglob fs root (fun nm => String.eqb nm ".git") in
  let repos := List.map parent (List.filter (selected fs filter_pattern) items) in
  sorted path_leb repos.

Section Organization.

Context {G : Type}.
Variable generate : Path -> Py G (list (string * Path)).


End Organization.

(** An organisation directory with three checkouts, one nested in
    another, and a plain directory. *)
Definition org_tree : list node :=
  [Dir "org"
     [Dir "web" [Dir ".git" [File "HEAD"]; File "app.js";
                 Dir "vendor" [Dir "data-lib" [Dir ".git" []; File "x.py"]]];
      Dir "data-lake" [Dir ".git" [File "HEAD"]; File "etl.py"];
      Dir "notes" [File ".git"; File "todo.py"]]].

(** The paths that one run of [process_directory] over a repository adds
    to [files_processed], for the registry of [b]. *)
Definition repo_ledger (fs : list node) (b : Builder) (r : Path)
  : list string :=
  List.flat_map
    (fun f => match extraction fs b f with
              | Some (Ret _) => [PyPath.str f]
              | _ => []
              end)
    (find_files fs r true (search_extensions None b)).


(** Two checkouts with one Python file each. *)
Definition two_repos_tree : list node :=
  [Dir "r1" [File "a.py"]; Dir "r2" [File "b.py"]].



(** The outcome of a loop that calls [h] on each element in turn and
    stops at the first exception. *)
Fixpoint all_or_first_error {A B} (h : A -> outcome B) (xs : list A)
  : outcome (list B) :=
  match xs with
  | [] => Ret []
  | x :: rest =>
      match h x with
      | Ret y =>
          match all_or_first_error h rest with
          | Ret ys => Ret (y :: ys)
          | Raise e => Raise e
          end
      | Raise e => Raise e
      end
  end.

(** ** Analysis of the graph by the generators *)

(** A dictionary used as a counter, its keys in insertion order. *)
Section Counter.

Context {K : Type}.
Variable key_eqb : K -> K -> bool.

(** [counts[k] = counts.get(k, 0) + 1] *)
Fixpoint count_key (k : K) (counts : list (K * nat)) : list (K * nat) :=
  match counts with
  | [] => [(k, 1%nat)]
  | (k', n) :: rest =>
      if key_eqb k' k then (k', (n + 1)%nat) :: rest
      else (k', n) :: count_key k rest
  end.

(** [counts.get(k, 0)] *)
Definition counter_get (counts : list (K * nat)) (k : K) : nat :=
  match List.find (fun kv => key_eqb (fst kv) k) counts with
  | Some kv => snd kv
  | None => 0%nat
  end.

(** [max(counts, key=counts.get)] continued from a first candidate: a
    later key replaces the candidate only when its count is greater. *)
Fixpoint argmax (best : K * nat) (rest : list (K * nat)) : K * nat :=
  match rest with
  | [] => best
  | kv :: rest' => argmax (if (snd best <? snd kv)%nat then kv else best) rest'
  end.

End Counter.

(** The counter by suffix of [_detect_primary_language] and of
    [ContextualDocumentationGenerator._count_file_types]. *)
Definition suffix_counts (files : list string) : list (string * nat) :=
  fold_left (fun counts file => count_key String.eqb (suffix_of_str file) counts)
            files [].

(** [ContextualDocumentationGenerator._analyze_repo]: the value of
    [primary_language]. *)
Definition primary_language (kg : KG) : string :=
  match suffix_counts (files_processed kg) with
  | [] => "unknown"
  | kv :: rest => fst (argmax kv rest)
  end.

Definition ext_to_language : list (string * string) :=
  [(".py", "Python"); (".js", "JavaScript"); (".ts", "TypeScript");
   (".java", "Java"); (".go", "Go"); (".rb", "Ruby"); (".rs", "Rust")].

(** [d.get(k, default)] for a literal dictionary *)
Definition dict_get {V} (d : list (string * V)) (k : string) (default : V) : V :=
  match List.find (fun kv => String.eqb (fst kv) k) d with
  | Some kv => snd kv
  | None => default
  end.

(** [ClaudeCodeFileGenerator._detect_primary_language] *)
Definition _detect_primary_language (kg : KG) : string :=
  let file_counts := suffix_counts (files_processed kg) in
  match file_counts with
  | [] => "unknown"
  | kv :: rest =>
      let primary_ext := fst (argmax kv rest) in
      dict_get ext_to_language primary_ext "unknown"
  end.

(** How many of the files have the given suffix. *)
Definition files_with_suffix (s : string) (files : list string) : nat :=
  length (List.filter (fun f => String.eqb (suffix_of_str f) s) files).

(** Every element is related to the next one. *)
Fixpoint adjacent {A} (rel : A -> A -> bool) (l : list A) : bool :=
  match l with
  | [] => true
  | x :: rest =>
      match rest with
      | [] => true
      | y :: _ => rel x y && adjacent rel rest
      end
  end.

(** [entity.get('type') == 'import'] *)
Definition is_import (entity : Entity) : bool :=
  match entity !! "type" with
  | Some ty => String.eqb ty "import"
  | None => false
  end.

(** [entity.get('name', '')] *)
Definition entity_name (entity : Entity) : string :=
  default "" (entity !! "name").

(** [name.split('.')[0]] *)
Fixpoint before_dot (s : string) : string :=
  match s with
  | EmptyString => EmptyString
  | String c rest =>
      if Ascii.eqb c "." then EmptyString else String c (before_dot rest)
  end.

(** [ContextualDocumentationGenerator._extract_tech_stack]: the top-level
    packages of the import entities are collected in a set, and the set is
    returned as a sorted list.  The sorted list of a set does not depend on
    the order in which the set is listed; here the set is listed by first
    occurrence. *)
Definition _extract_tech_stack (entities : list Entity) : list string :=
  sorted String.leb
    (nodup String.string_dec
       (List.map (fun entity => before_dot (entity_name entity))
                 (List.filter is_import entities))).

(** Keys of [module_importance]: [rel.get('from')] and [rel.get('to')],
    which are [None] when the key is missing. *)
Definition option_string_eqb (a b : option string) : bool :=
  match a, b with
  | Some x, Some y => String.eqb x y
  | None, None => true
  | _, _ => false
  end.

Definition endpoints (relationships : list Relationship)
  : list (option string) :=
  List.flat_map (fun rel => [rel !! "from"; rel !! "to"]) relationships.

(** [ContextualDocumentationGenerator._identify_key_modules]: names with
    their importance. *)
Definition _identify_key_modules (relationships : list Relationship)
  : list (option string * nat) :=
  let module_importance :=
    fold_left (fun counts k => count_key option_string_eqb k counts)
              (endpoints relationships) [] in
  let top_modules :=
    firstn 10 (sorted (fun a b => (snd b <=? snd a)%nat) module_importance) in
  top_modules.

(** How often a name is an endpoint of a relationship. *)
Definition endpoint_count (k : option string)
  (relationships : list Relationship) : nat :=
  length (List.filter (fun e => option_string_eqb e k)
                      (endpoints relationships)).

Section Framework.

(** [str.lower]; the detection is stated for whatever lower-casing is
    used. *)
Variable str_lower : string -> string.

Definition framework_indicators : list (string * string) :=
  [("django", "Django"); ("flask", "Flask"); ("fastapi", "FastAPI");
   ("react", "React"); ("vue", "Vue"); ("angular", "Angular");
   ("express", "Express"); ("spring", "Spring Boot")].

(** The inner loop over the indicators. *)
Fixpoint first_indicator (name : string) (table : list (string * string))
  : option string :=
  match table with
  | [] => None
  | (indicator, framework) :: rest =>
      if contains indicator name then Some framework
      else first_indicator name rest
  end.

(** [ClaudeCodeFileGenerator._detect_framework] *)
Fixpoint _detect_framework (entities : list Entity) : option string :=
  match entities with
  | [] => None
  | entity :: rest =>
      if is_import entity then
        match first_indicator (str_lower (entity_name entity))
                              framework_indicators with
        | Some framework => Some framework
        | None => _detect_framework rest
        end
      else _detect_framework rest
  end.

End Framework.

(** ** [NotebookConverter] of [kg_from_ipy.py] as an object with a log *)

Module Converter.

(** An entry of [conversion_log]; the key ['error'] exists on failure
    only. *)
Record LogEntry : Type := {
  log_notebook : string;
  log_python_file : option string;
  log_status : string;
  log_error : option string
}.

(** The attributes of the converter. *)
Record State : Type := {
  notebook_dir : Path;
  output_dir : Path;
  preserve_structure : bool;
  conversion_log : list LogEntry
}.

Definition append_log (entry : LogEntry) (self : State) : State :=
  {| notebook_dir := notebook_dir self;
     output_dir := output_dir self;
     preserve_structure := preserve_structure self;
     conversion_log := conversion_log self ++ [entry] |}.

(** [Path.stem] *)
Definition stem_of_name (nm : string) : string :=
  match PyStr.rfind "." nm with
  | Some i =>
      if (0 <? i)%nat && (i <? String.length nm - 1)%nat
      then substring 0 i nm
      else nm
  | None => nm
  end.

Definition stem (p : Path) : string := stem_of_name (PyPath.name p).

(** The parts of [p] after those of [base], if [p] is below [base]. *)
Fixpoint strip_prefix (base p : Path) : option Path :=
  match base, p with
  | [], _ => Some p
  | b :: base', x :: p' =>
      if String.eqb b x then strip_prefix base' p' else None
  | _ :: _, [] => None
  end.

Section Run.

(** The file tree, the outcome of creating a directory with its parents,
    the outcome of the [nbconvert] command for an output path and a
    notebook ([None]: exit status 0; a [CalledProcessError] for another
    exit status; any other exception when the command cannot be run), and
    the texts of the two [ValueError]s of [pathlib]. *)
Variable fs : list node.
Variable mkdir : Path -> option exn.
Variable nbconvert : Path -> Path -> option exn.
Variable not_relative_text : Path -> Path -> string.
Variable empty_name_text : Path -> string.

(** [Path.relative_to] *)
Definition relative_to (p base : Path) : outcome Path :=
  match strip_prefix base p with
  | Some rel => Ret rel
  | None => Raise (Exn "ValueError" (not_relative_text p base))
  end.

(** [Path.with_suffix] for a suffix that starts with a dot. *)
Definition with_suffix (p : Path) (suffix : string) : outcome Path :=
  let name := PyPath.name p in
  if String.eqb name "" then Raise (Exn "ValueError" (empty_name_text p))
  else
    let old_suffix := PyPath.suffix p in
    let name' :=
      if String.eqb old_suffix "" then name +:+ suffix
      else substring 0 (String.length name - String.length old_suffix) name
           +:+ suffix in
    Ret (removelast p ++ [name']).

Definition run {S} (r : option exn) : Py S unit :=
  match r with
  | None => ret tt
  | Some e => raise e
  end.

(** [convert_single_notebook] *)
Definition convert_single_notebook (notebook_path : Path)
  : Py State (option Path) :=
  try_except
    (self <- get ;;
     output_path <-
       (if preserve_structure self then
          rel_path <- call (relative_to notebook_path (notebook_dir self)) ;;
          py_rel <- call (with_suffix rel_path ".py") ;;
          ret (output_dir self ++ py_rel)
        else
          ret (PyPath.join (output_dir self) (stem notebook_path +:+ ".py"))) ;;
     run (mkdir (parent output_path)) ;;;
     run (nbconvert output_path notebook_path) ;;;
     modify (append_log
               {| log_notebook := PyPath.str notebook_path;
                  log_python_file := Some (PyPath.str output_path);
                  log_status := "success";
                  log_error := None |}) ;;;
     ret (Some output_path))
    (fun e =>
       if String.eqb (exn_class e) "CalledProcessError" then
         modify (append_log
                   {| log_notebook := PyPath.str notebook_path;
                      log_python_file := None;
                      log_status := "failed";
                      log_error := Some (exn_str e) |}) ;;;
         ret None
       else
         modify (append_log
                   {| log_notebook := PyPath.str notebook_path;
                      log_python_file := None;
                      log_status := "error";
                      log_error := Some (exn_str e) |}) ;;;
         ret None).

(** Where the converted file goes, or the exception that prevents the
    conversion. *)
Definition attempt (self : State) (nb : Path) : outcome Path :=
  let planned :=
    if preserve_structure self then
      match strip_prefix (notebook_dir self) nb with
      | None => Raise (Exn "ValueError"
                         (not_relative_text nb (notebook_dir self)))
      | Some rel =>
          if String.eqb (PyPath.name rel) ""
          then Raise (Exn "ValueError" (empty_name_text rel))
          else Ret (output_dir self
                    ++ removelast rel ++ [stem rel +:+ ".py"])
      end
    else Ret (PyPath.join (output_dir self)
                          (stem nb +:+ ".py")) in
  match planned with
  | Raise e => Raise e
  | Ret p =>
      match mkdir (parent p) with
      | Some e => Raise e
      | None =>
          match nbconvert p nb with
          | Some e => Raise e
          | None => Ret p
          end
      end
  end.

(** The output path that the [try] block computes first, or the
    [ValueError] of [relative_to] or [with_suffix]. *)
Definition output_path_for (self : State) (notebook_path : Path)
  : outcome Path :=
  if preserve_structure self then
    match relative_to notebook_path (notebook_dir self) with
    | Raise e => Raise e
    | Ret rel_path =>
        match with_suffix rel_path ".py" with
        | Raise e => Raise e
        | Ret py_rel => Ret (output_dir self ++ py_rel)
        end
    end
  else Ret (PyPath.join (output_dir self) (stem notebook_path +:+ ".py")).

(** [find_all_notebooks] *)
Definition find_all_notebooks (self : State) : list Path :=
  let notebooks := FS.rglob fs (notebook_dir self) (FS.star ".ipynb") in
  List.filter (fun nb => negb (contains ".ipynb_checkpoints" (PyPath.str nb)))
              notebooks.

(** The loop of [convert_all], with the files converted so far. *)
Fixpoint convert_each (notebooks : list Path) (converted_files : list Path)
  : Py State (list Path) :=
  match notebooks with
  | [] => ret converted_files
  | notebook :: rest =>
      py_file <- convert_single_notebook notebook ;;
      match py_file with
      | Some p => convert_each rest (converted_files ++ [p])
      | None => convert_each rest converted_files
      end
  end.

(** [convert_all] *)
Definition convert_all : Py State (list Path) :=
  self <- get ;;
  convert_each (find_all_notebooks self) [].

End Run.

(** The entries of a log with status ['success']. *)
Definition successes (log : list LogEntry) : list LogEntry :=
  List.filter (fun entry => String.eqb (log_status entry) "success") log.

(** The converter that [JupyterProcessor] builds:
    [NotebookConverter(notebook_dir=".", output_dir=temp_dir)]. *)
Definition for_jupyter (temp_dir : Path) : State :=
  {| notebook_dir := []; output_dir := temp_dir;
     preserve_structure := true; conversion_log := [] |}.

End Converter.

(** Notebooks of a sample tree, one in a checkpoint directory. *)
Definition notebook_tree : list node :=
  [Dir "nb" [File "a.ipynb";
             Dir ".ipynb_checkpoints" [File "a-checkpoint.ipynb"];
             Dir "sub" [File "b.ipynb"; File "c.py"]]].

(** The command fails on [b.ipynb]. *)
Definition failing_on_b : Path -> Path -> option exn :=
  fun _ nb => if String.eqb (PyPath.name nb) "b.ipynb"
              then Some (Exn "CalledProcessError"
                             "Command returned non-zero exit status 1.")
              else None.

(** * Properties *)

(** ** Resolution of a processor *)

Lemma get_processor_run (file_path : Path) (b : Builder) :
  get_processor file_path b =
  (Ret (List.find (fun p => can_process p file_path) (processors b)), b).
Proof. reflexivity. Qed.

Lemma find_first {A} (f : A -> bool) (l : list A) (x : A) :
  List.find f l = Some x <->
  exists before after,
    l = before ++ x :: after /\ f x = true /\
    Forall (fun y => f y = false) before.
Proof.
  split.
  - induction l as [|a l IH]; simpl; [discriminate|].
    destruct (f a) eqn:Ha.
    + intros [= ->]. exists [], l. repeat split; auto.
    + intros H. destruct (IH H) as (bf & af & -> & Hx & Hbf).
      exists (a :: bf), af. repeat split; auto.
  - intros (bf & af & -> & Hx & Hbf).
    induction Hbf as [|y bf Hy _ IH]; simpl.
    + now rewrite Hx.
    + now rewrite Hy.
Qed.

Lemma find_none {A} (f : A -> bool) (l : list A) :
  List.find f l = None <-> Forall (fun y => f y = false) l.
Proof.
  induction l as [|a l IH]; simpl.
  - split; auto.
  - destruct (f a) eqn:Ha; split.
    + discriminate.
    + intros H. inversion H; congruence.
    + intros H. constructor; [assumption | now apply IH].
    + intros H. inversion H; subst. now apply IH.
Qed.

Lemma find_app_some {A} (f : A -> bool) (l l' : list A) (x : A) :
  List.find f l = Some x -> List.find f (l ++ l') = Some x.
Proof.
  induction l as [|a l IH]; simpl; [discriminate|].
  destruct (f a); auto.
Qed.

(** C6. For a fixed list of registered processors, [get_processor] leaves
    the builder as it is and returns the first registered processor whose
    [can_process] accepts the file, [None] when no registered processor
    accepts it; a repeated call, and a call on any builder with the same
    registrations, returns the same answer, and a processor registered
    later never displaces the one already selected. *)
Theorem get_processor_first_registered (b : Builder) (f : Path) :
  exists r : option FileProcessor,
    get_processor f b = (Ret r, b)
    /\ (forall p, r = Some p <->
          exists before after,
            processors b = before ++ p :: after
            /\ can_process p f = true
            /\ Forall (fun q => can_process q f = false) before)
    /\ (r = None <-> Forall (fun q => can_process q f = false) (processors b))
    /\ (get_processor f ;;; get_processor f) b = (Ret r, b)
    /\ (forall b', processors b' = processors b ->
          fst (get_processor f b') = Ret r)
    /\ (forall p q, r = Some p ->
          fst ((register_processor q ;;; get_processor f) b) = Ret (Some p)).
Proof.
  exists (List.find (fun p => can_process p f) (processors b)).
  split; [reflexivity|].
  split; [intros p; apply (find_first (fun p => can_process p f))|].
  split; [apply (find_none (fun p => can_process p f))|].
  split; [reflexivity|].
  split.
  - intros b' Hb'. rewrite get_processor_run. simpl. now rewrite Hb'.
  - intros p q Hp. cbn. f_equal. now apply find_app_some.
Qed.

(** Two processors that accept the same file: the one registered first is
    selected. *)
Example get_processor_shadowing :
  let late := {| class_name := "Late";
                 can_process := fun _ => true;
                 extract_knowledge := fun _ => Raise (Exn "Exception" "late");
                 get_supported_extensions := [".py"] |} in
  let b := {| processors := [PythonProcessor; late]; kg_data := empty_kg |} in
  option_map class_name (match fst (get_processor ["a.py"] b) with
                         | Ret r => r | Raise _ => None end)
  = Some "PythonProcessor"
  /\ option_map class_name (match fst (get_processor ["a.txt"] b) with
                            | Ret r => r | Raise _ => None end)
     = Some "Late".
Proof. split; reflexivity. Qed.

(** ** Statistics *)

Lemma bump_lookup (counts : gmap string nat) (k ty : string) :
  bump counts k !! ty =
  if String.eqb k ty then Some (default 0 (counts !! ty) + 1)%nat
  else counts !! ty.
Proof.
  unfold bump. destruct (String.eqb_spec k ty) as [->|Hne].
  - apply lookup_insert_eq.
  - now apply lookup_insert_ne.
Qed.

Lemma count_loop_lookup {A} (key : A -> string) (xs : list A)
  (counts : gmap string nat) (ty : string) :
  fold_left (fun c x => bump c (key x)) xs counts !! ty =
  match length (List.filter (fun x => String.eqb (key x) ty) xs) with
  | O => counts !! ty
  | S n => Some (default 0 (counts !! ty) + S n)%nat
  end.
Proof.
  revert counts. induction xs as [|x xs IH]; intros counts; simpl.
  - reflexivity.
  - rewrite IH, bump_lookup.
    destruct (String.eqb (key x) ty); simpl.
    + destruct (length _); simpl; f_equal; lia.
    + reflexivity.
Qed.

(** C9. [get_statistics] reads the sizes of the sequences as they are at
    the call: the three totals are the lengths of [files_processed],
    [entities] and [relationships], and the count recorded for an entity
    type is its multiplicity in the entity sequence (a type that does not
    occur has no entry); an entity without a ['type'] key is counted under
    ['unknown'].  Three functions and two classes give
    [{function: 3, class: 2}], and a merge is reflected by the next
    call. *)
Theorem get_statistics_literal_sizes (b : Builder) :
  total_files (get_statistics b) = length (files_processed (kg_data b))
  /\ total_entities (get_statistics b) = length (entities (kg_data b))
  /\ total_relationships (get_statistics b)
     = length (relationships (kg_data b))
  /\ (forall ty,
        entity_types (get_statistics b) !! ty =
        match multiplicity ty (entities (kg_data b)) with
        | O => None
        | S n => Some (S n)
        end)
  /\ (let e ty : Entity := {[ "type" := ty ]} in
      entity_types (get_statistics
        (set_kg (fun kg => {| entities := [e "function"; e "class";
                                           e "function"; e "function";
                                           e "class"];
                              relationships := relationships kg;
                              metadata := metadata kg;
                              files_processed := files_processed kg |}) b))
      = {[ "function" := 3%nat; "class" := 2%nat ]})
  /\ (forall f d,
        let b' := set_kg (merge f d) b in
        total_entities (get_statistics b')
        = (total_entities (get_statistics b) + length (get_entities d))%nat
        /\ total_relationships (get_statistics b')
           = (total_relationships (get_statistics b)
              + length (get_relationships d))%nat
        /\ forall ty,
             default 0%nat (entity_types (get_statistics b') !! ty)
             = (default 0%nat (entity_types (get_statistics b) !! ty)
                + multiplicity ty (get_entities d))%nat).
Proof.
  split; [reflexivity|]. split; [reflexivity|]. split; [reflexivity|].
  split.
  { intros ty. simpl. unfold _count_entity_types.
    rewrite count_loop_lookup. unfold multiplicity.
    destruct (length _); [apply lookup_empty|].
    rewrite lookup_empty. reflexivity. }
  split.
  { vm_compute. reflexivity. }
  intros f d b'. subst b'. simpl.
  split; [apply length_app|]. split; [apply length_app|].
  intros ty. unfold _count_entity_types. simpl.
  rewrite !count_loop_lookup, lookup_empty.
  rewrite List.filter_app, length_app.
  unfold multiplicity.
  destruct (length (List.filter _ (entities (kg_data b)))),
           (length (List.filter _ (get_entities d))); simpl; lia.
Qed.

(** ** Running [process_file] and the loop body *)

Lemma process_file_run (fs : list node) (f : Path) (b : Builder) :
  process_file fs f b =
  match extraction fs b f with
  | Some (Ret d) => (Ret (Some d), set_kg (append_file (PyPath.str f)) b)
  | _ => (Ret None, b)
  end.
Proof.
  unfold process_file, extraction.
  destruct (FS.exists_ fs f); simpl; [|reflexivity].
  unfold bind at 1. rewrite get_processor_run.
  destruct (List.find _ (processors b)) as [p|]; simpl; [|reflexivity].
  unfold try_except, bind, call, modify, ret.
  destruct (extract_knowledge p f); reflexivity.
Qed.

Lemma process_one_run (fs : list node) (f : Path) (b : Builder) :
  process_one fs f b = (Ret tt, after_file fs f b).
Proof.
  unfold process_one, after_file, bind. rewrite process_file_run.
  destruct (extraction fs b f) as [[d|e]|]; try reflexivity.
  destruct (truthy d); reflexivity.
Qed.

Lemma for_each_process_one (fs : list node) (files : list Path) (b : Builder) :
  for_each files (process_one fs) b
  = (Ret tt, fold_left (fun b f => after_file fs f b) files b).
Proof.
  revert b. induction files as [|f files IH]; intros b; simpl.
  - reflexivity.
  - unfold bind. rewrite process_one_run. apply IH.
Qed.

Lemma after_file_processors (fs : list node) (f : Path) (b : Builder) :
  processors (after_file fs f b) = processors b.
Proof.
  unfold after_file. destruct (extraction fs b f) as [[d|e]|]; try reflexivity.
  destruct (truthy d); reflexivity.
Qed.

Lemma extraction_ext (fs : list node) (b b' : Builder) (f : Path) :
  processors b' = processors b -> extraction fs b' f = extraction fs b f.
Proof. unfold extraction. now intros ->. Qed.

Lemma falsy_dict_is_empty (d : KgDict) :
  truthy d = false -> get_entities d = [] /\ get_relationships d = [].
Proof.
  unfold truthy, get_entities, get_relationships.
  destruct (d_entities d), (d_relationships d), (d_metadata d);
    simpl; try discriminate; auto.
Qed.

(** ** Dispatch on the extension *)

(** C10. With the default processors registered, a file whose suffix is a
    supported extension in another letter case ([X.PY], [NB.IPYNB]) is
    resolved to no processor, [process_file] returns [None] for it and the
    loop body adds nothing to the graph, although [from_extension] maps
    the same suffix to a file type. *)
Theorem dispatch_is_case_sensitive
  (fs : list node) (converter : NotebookConverter) (b : Builder) (f : Path) :
  processors b = processors (init converter) ->
  PyStr.mem (PyStr.lower (PyPath.suffix f)) (search_extensions None b) = true ->
  PyStr.mem (PyPath.suffix f) (search_extensions None b) = false ->
  get_processor f b = (Ret None, b)
  /\ process_file fs f b = (Ret None, b)
  /\ process_one fs f b = (Ret tt, b)
  /\ exists ft, from_extension (PyPath.suffix f) = Some ft
                /\ PyStr.mem (PyStr.lower (PyPath.suffix f)) (value ft) = true.
Proof.
  intros Hp Hlow Hcase.
  unfold search_extensions in Hlow, Hcase. rewrite Hp in Hlow, Hcase.
  simpl in Hlow, Hcase.
  assert (Hfind : List.find (fun p => can_process p f) (processors b) = None).
  { rewrite Hp. simpl.
    repeat (apply orb_false_elim in Hcase as [? Hcase]).
    unfold PyStr.mem, office_supported. simpl.
    repeat match goal with H : String.eqb _ _ = false |- _ => rewrite H; clear H end.
    reflexivity. }
  assert (Hex : extraction fs b f = None).
  { unfold extraction. rewrite Hfind. now destruct (FS.exists_ fs f). }
  split; [rewrite get_processor_run; now rewrite Hfind|].
  split; [rewrite process_file_run; now rewrite Hex|].
  split; [rewrite process_one_run; unfold after_file; now rewrite Hex|].
  unfold from_extension.
  repeat (apply orb_true_iff in Hlow as [Hlow|Hlow];
          [apply String.eqb_eq in Hlow; rewrite Hlow;
           eexists; split; reflexivity|]).
  discriminate.
Qed.

Lemma dispatch_is_case_sensitive_witness :
  get_processor ["X.PY"] (init null_converter) = (Ret None, init null_converter)
  /\ process_file sample_tree ["X.PY"] (init null_converter)
     = (Ret None, init null_converter)
  /\ process_one sample_tree ["X.PY"] (init null_converter)
     = (Ret tt, init null_converter)
  /\ exists ft, from_extension (PyPath.suffix ["X.PY"]) = Some ft
                /\ PyStr.mem (PyStr.lower (PyPath.suffix ["X.PY"])) (value ft)
                   = true.
Proof.
  apply (dispatch_is_case_sensitive sample_tree null_converter
           (init null_converter) ["X.PY"]); reflexivity.
Defined.

(** The same for a notebook, on a tree where the file exists. *)
Example notebook_in_capitals_is_skipped :
  let fs := [File "NB.IPYNB"] in
  FS.exists_ fs ["NB.IPYNB"] = true
  /\ process_file fs ["NB.IPYNB"] (init null_converter)
     = (Ret None, init null_converter)
  /\ from_extension (PyPath.suffix ["NB.IPYNB"]) = Some JUPYTER.
Proof. repeat split. Qed.

(** ** Export *)

Lemma getitem_state {S} (d : gmap string string) (key : string) (s : S) :
  snd (getitem d key s) = s.
Proof. unfold getitem. now destruct (d !! key). Qed.

Lemma collect_state {S A B} (f : A -> Py S B) (xs : list A) (s : S) :
  (forall x s', snd (f x s') = s') -> snd (collect f xs s) = s.
Proof.
  intros Hf. induction xs as [|x xs IH]; simpl; [reflexivity|].
  unfold bind. specialize (Hf x s).
  destruct (f x s) as [[y|e] s1]; simpl in Hf; subst s1; [|reflexivity].
  destruct (collect f xs s) as [[ys|e] s2]; simpl in IH; subst s2; reflexivity.
Qed.

Lemma bind_state {S A B} (m : Py S A) (k : A -> Py S B) (s : S) :
  snd (m s) = s -> (forall a, snd (k a s) = s) -> snd (bind m k s) = s.
Proof.
  unfold bind. intros Hm Hk.
  destruct (m s) as [[a|e] s1]; simpl in Hm; subst s1; [apply Hk|reflexivity].
Qed.

Lemma open_w_state {S} (o : string -> option exn) (p : string) (s : S) :
  snd (open_w o p s) = s.
Proof. unfold open_w. now destruct (o p). Qed.

Lemma export_kg_state (o : string -> option exn) (p fmt : string) (b : Builder) :
  snd (export_kg o p fmt b) = b.
Proof.
  unfold export_kg.
  destruct (String.eqb fmt "json").
  { apply bind_state; [apply open_w_state|reflexivity]. }
  destruct (String.eqb fmt "neo4j").
  { unfold _export_to_neo4j.
    apply bind_state; [reflexivity|intros b0].
    apply bind_state.
    { apply collect_state. intros x s'.
      apply bind_state; [apply getitem_state|intros ty].
      apply bind_state; [apply getitem_state|reflexivity]. }
    intros nodes. apply bind_state.
    { apply collect_state. intros x s'.
      apply bind_state; [apply getitem_state|intros src].
      apply bind_state; [apply getitem_state|intros dst].
      apply bind_state; [apply getitem_state|reflexivity]. }
    intros edges. apply bind_state; [apply open_w_state|reflexivity]. }
  destruct (String.eqb fmt "graphml"); reflexivity.
Qed.

(** C4 (as amended). An export in a format other than [json], [neo4j] and
    [graphml] raises nothing: the call returns normally, writes no file,
    and leaves the builder as it was; no export, in whatever format,
    changes the builder. *)
Theorem export_unsupported_format_is_silent
  (o : string -> option exn) (b : Builder) (output_path format : string) :
  format <> "json" -> format <> "neo4j" -> format <> "graphml" ->
  export_kg o output_path format b = (Ret [], b)
  /\ forall fmt, snd (export_kg o output_path fmt b) = b.
Proof.
  intros Hj Hn Hg. split; [|intros fmt; apply export_kg_state].
  unfold export_kg.
  apply String.eqb_neq in Hj, Hn, Hg. now rewrite Hj, Hn, Hg.
Qed.

Lemma export_unsupported_format_is_silent_witness :
  export_kg writable "graph.xml" "xml" (init null_converter)
  = (Ret [], init null_converter)
  /\ forall fmt,
       snd (export_kg writable "graph.xml" fmt (init null_converter))
       = init null_converter.
Proof.
  apply (export_unsupported_format_is_silent writable (init null_converter)
           "graph.xml" "xml"); discriminate.
Defined.

(** C4 as stated fails: the export to ["xml"] does not raise. *)
Lemma export_xml_raises_nothing :
  ~ (exists e, fst (export_kg writable "graph.xml" "xml" (init null_converter))
               = Raise e).
Proof. intros [e He]. discriminate He. Qed.

(** ** The processed-file ledger *)

Lemma extraction_found (fs : list node) (b : Builder) (f : Path)
  (p : FileProcessor) :
  FS.exists_ fs f = true ->
  List.find (fun q => can_process q f) (processors b) = Some p ->
  extraction fs b f = Some (extract_knowledge p f).
Proof. unfold extraction. now intros -> ->. Qed.

Lemma after_file_success (fs : list node) (b : Builder) (f : Path) (d : KgDict) :
  extraction fs b f = Some (Ret d) ->
  files_processed (kg_data (after_file fs f b))
  = files_processed (kg_data b) ++ [PyPath.str f]
  /\ entities (kg_data (after_file fs f b))
     = entities (kg_data b) ++ get_entities d
  /\ relationships (kg_data (after_file fs f b))
     = relationships (kg_data b) ++ get_relationships d
  /\ (truthy d = true ->
      metadata (kg_data (after_file fs f b)) !! PyPath.str f
      = Some (get_metadata d)).
Proof.
  intros H. unfold after_file. rewrite H.
  destruct (truthy d) eqn:Ht; simpl.
  - repeat split; auto. intros _. apply lookup_insert_eq.
  - destruct (falsy_dict_is_empty d Ht) as [-> ->].
    rewrite !app_nil_r. repeat split; auto. discriminate.
Qed.

(** C3 (as amended). [process_file] appends the path to [files_processed]
    on every successful extraction, whether or not the path is already
    there: when the loop body runs twice on the same file, the path is in
    the ledger twice more (so the ledger has a duplicate), the entities
    and relationships of the result are appended twice, and the metadata
    entry of the file is that of the result. *)
Theorem repeated_file_is_appended_again
  (fs : list node) (b : Builder) (f : Path) (p : FileProcessor) (d : KgDict) :
  FS.exists_ fs f = true ->
  List.find (fun q => can_process q f) (processors b) = Some p ->
  extract_knowledge p f = Ret d ->
  exists b2,
    (process_one fs f ;;; process_one fs f) b = (Ret tt, b2)
    /\ files_processed (kg_data b2)
       = files_processed (kg_data b) ++ [PyPath.str f; PyPath.str f]
    /\ entities (kg_data b2)
       = entities (kg_data b) ++ get_entities d ++ get_entities d
    /\ relationships (kg_data b2)
       = relationships (kg_data b) ++ get_relationships d ++ get_relationships d
    /\ (truthy d = true ->
        metadata (kg_data b2) !! PyPath.str f = Some (get_metadata d))
    /\ ~ List.NoDup (files_processed (kg_data b2)).
Proof.
  intros Hex Hfind Hd.
  exists (after_file fs f (after_file fs f b)).
  assert (H1 : extraction fs b f = Some (Ret d)).
  { rewrite (extraction_found fs b f p Hex Hfind). now rewrite Hd. }
  assert (H2 : extraction fs (after_file fs f b) f = Some (Ret d)).
  { rewrite (extraction_ext fs b); [exact H1|apply after_file_processors]. }
  destruct (after_file_success fs b f d H1) as (F1 & E1 & R1 & _).
  destruct (after_file_success fs _ f d H2) as (F2 & E2 & R2 & M2).
  split.
  { unfold bind. now rewrite !process_one_run. }
  assert (HF : files_processed (kg_data (after_file fs f (after_file fs f b)))
               = files_processed (kg_data b) ++ [PyPath.str f; PyPath.str f]).
  { rewrite F2, F1, <- app_assoc. reflexivity. }
  split; [exact HF|].
  split; [rewrite E2, E1, <- app_assoc; reflexivity|].
  split; [rewrite R2, R1, <- app_assoc; reflexivity|].
  split; [exact M2|].
  rewrite HF. intros Hnd.
  apply NoDup_app_remove_l in Hnd.
  inversion Hnd as [|x l Hin _]; subst. apply Hin. now left.
Qed.

Lemma repeated_file_is_appended_again_witness :
  exists b2,
    (process_one faulty_tree ["repo"; "one.py"] ;;;
     process_one faulty_tree ["repo"; "one.py"]) naming_builder = (Ret tt, b2)
    /\ files_processed (kg_data b2) = ["repo/one.py"; "repo/one.py"]
    /\ List.map (fun e : Entity => e !! "name") (entities (kg_data b2))
       = [Some "one.py"; Some "one.py"].
Proof.
  destruct (repeated_file_is_appended_again faulty_tree naming_builder
              ["repo"; "one.py"] NamingProcessor
              {| d_entities := Some [ {[ "type" := "module"; "name" := "one.py" ]} ];
                 d_relationships :=
                   Some [ {[ "type" := "defined_in"; "from" := "one.py";
                             "to" := "repo" ]} ];
                 d_metadata := None;
                 d_fields := {[ "source_file" := Some "repo/one.py" ]} |}
              eq_refl eq_refl eq_refl)
    as (b2 & Hrun & HF & HE & _).
  exists b2. split; [exact Hrun|]. split; [exact HF|].
  rewrite HE. reflexivity.
Defined.

(** C3 as stated fails: after the default builder has processed [a.py]
    twice, the ledger holds the path twice. *)
Lemma ledger_gains_a_duplicate :
  let fs := [File "a.py"] in
  let b2 := snd ((process_one fs ["a.py"] ;;; process_one fs ["a.py"])
                   (init null_converter)) in
  files_processed (kg_data b2) = ["a.py"; "a.py"]
  /\ ~ List.NoDup (files_processed (kg_data b2)).
Proof.
  split; [reflexivity|].
  intros Hnd. inversion Hnd as [|x l Hin _]; subst. apply Hin. now left.
Qed.

(** ** A file that fails does not stop the directory run *)

Lemma fold_after_file (fs : list node) (b0 : Builder) (files : list Path) :
  forall b, processors b = processors b0 ->
    let b' := fold_left (fun b f => after_file fs f b) files b in
    processors b' = processors b0
    /\ entities (kg_data b')
       = entities (kg_data b)
         ++ List.flat_map (fun f => match extraction fs b0 f with
                                    | Some (Ret d) => get_entities d
                                    | _ => []
                                    end) files
    /\ relationships (kg_data b')
       = relationships (kg_data b)
         ++ List.flat_map (fun f => match extraction fs b0 f with
                                    | Some (Ret d) => get_relationships d
                                    | _ => []
                                    end) files
    /\ files_processed (kg_data b')
       = files_processed (kg_data b)
         ++ List.flat_map (fun f => match extraction fs b0 f with
                                    | Some (Ret d) => [PyPath.str f]
                                    | _ => []
                                    end) files.
Proof.
  induction files as [|f files IH]; intros b Hb; simpl.
  - rewrite !app_nil_r. auto.
  - assert (Hp : processors (after_file fs f b) = processors b0)
      by (rewrite after_file_processors; exact Hb).
    destruct (IH _ Hp) as (P & E & R & F).
    split; [exact P|].
    rewrite E, R, F. clear IH P E R F.
    rewrite <- (extraction_ext fs b0 b f Hb).
    destruct (extraction fs b f) as [[d|e]|] eqn:Hx.
    + destruct (after_file_success fs b f d Hx) as (F1 & E1 & R1 & _).
      rewrite F1, E1, R1, <- !app_assoc. auto.
    + unfold after_file. rewrite Hx. auto.
    + unfold after_file. rewrite Hx. auto.
Qed.


(** One unreadable file between two valid ones: the run returns, and the
    graph holds the entities and relationships of the two valid files. *)
Example one_unreadable_file_two_valid :
  extraction faulty_tree naming_builder ["repo"; "bad.py"]
  = Some (Raise (Exn "UnicodeDecodeError" "invalid start byte"))
  /\ exists kg,
       fst (process_directory faulty_tree ["repo"] true None naming_builder)
       = Ret kg
       /\ List.map (fun e : Entity => e !! "name") (entities kg)
          = [Some "one.py"; Some "two.py"]
       /\ List.map (fun r : Relationship => r !! "from") (relationships kg)
          = [Some "one.py"; Some "two.py"]
       /\ files_processed kg = ["repo/one.py"; "repo/two.py"].
Proof. split; [reflexivity|]. eexists. repeat split. Qed.

(** ** The directory walk *)

Lemma find_files_filter (fs : list node) (directory : Path) (recursive : bool)
  (extensions : list string) :
  find_files fs directory recursive extensions
  = List.filter (fun f => negb (hidden f))
                (globbed fs directory recursive extensions).
Proof. unfold find_files, globbed. now destruct recursive. Qed.

Lemma not_hidden_parts (f : Path) :
  hidden f = false -> Forall (fun part => PyStr.startswith part "." = false) f.
Proof.
  unfold hidden. induction f as [|x f IH]; simpl; intros H.
  - constructor.
  - apply orb_false_elim in H as [Hx Hf]. constructor; auto.
Qed.

(** C8. No path returned by the directory walk has a component that
    starts with a dot (a hidden or checkpoint directory, or a hidden
    file), and the walk returns every globbed path without such a
    component.  On the tree with [root/.git/config],
    [root/a/.ipynb_checkpoints/x.ipynb] and [root/a/b.py] the walk returns
    [root/a/b.py] only, also for an extension list whose globs match the
    other two. *)
Theorem walk_excludes_hidden_segments
  (fs : list node) (directory : Path) (recursive : bool)
  (extensions : list string) :
  Forall (fun f => Forall (fun part => PyStr.startswith part "." = false) f)
         (find_files fs directory recursive extensions)
  /\ (forall f, In f (find_files fs directory recursive extensions) <->
                In f (globbed fs directory recursive extensions)
                /\ hidden f = false)
  /\ find_files sample_tree ["root"] true
       (search_extensions None (init null_converter))
     = [["root"; "a"; "b.py"]]
  /\ globbed sample_tree ["root"] true ["config"; ".ipynb"; ".py"]
     = [["root"; ".git"; "config"];
        ["root"; "a"; ".ipynb_checkpoints"; "x.ipynb"];
        ["root"; "a"; "b.py"]]
  /\ find_files sample_tree ["root"] true ["config"; ".ipynb"; ".py"]
     = [["root"; "a"; "b.py"]].
Proof.
  split.
  { rewrite find_files_filter. apply List.Forall_forall. intros f Hf.
    apply filter_In in Hf as [_ Hf]. apply not_hidden_parts.
    now apply negb_true_iff. }
  split.
  { intros f. rewrite find_files_filter, filter_In, negb_true_iff.
    reflexivity. }
  repeat split.
Qed.

(** ** Order and multiplicity in the walk *)

(** Induction on trees, with the hypothesis for every child. *)
Fixpoint node_rect_nested (P : node -> Prop)
  (HF : forall nm, P (File nm))
  (HD : forall nm cs, Forall P cs -> P (Dir nm cs)) (n : node) : P n :=
  match n with
  | File nm => HF nm
  | Dir nm cs =>
      HD nm cs
         ((fix children (l : list node) : Forall P l :=
             match l with
             | [] => @List.Forall_nil node P
             | c :: l' =>
                 @List.Forall_cons node P c l' (node_rect_nested P HF HD c)
                                   (children l')
             end) cs)
  end.

Lemma name_join (here : Path) (nm : string) :
  PyPath.name (PyPath.join here nm) = nm.
Proof. unfold PyPath.name, PyPath.join. apply last_last. Qed.

Lemma filter_flat_map_comm {A B} (p : B -> bool) (g : A -> list B) (l : list A) :
  List.filter p (List.flat_map g l)
  = List.flat_map (fun x => List.filter p (g x)) l.
Proof.
  induction l as [|x l IH]; simpl; [reflexivity|].
  now rewrite List.filter_app, IH.
Qed.

Lemma matching_as_filter (pat : string -> bool) (here : Path) (ns : list node) :
  FS.matching pat here ns
  = List.filter (fun p => pat (PyPath.name p))
                (FS.matching (fun _ => true) here ns).
Proof.
  unfold FS.matching. induction ns as [|n ns IH]; simpl; [reflexivity|].
  rewrite name_join. destruct (pat (node_name n)); simpl; now rewrite IH.
Qed.

Lemma rglob_node_as_filter (pat : string -> bool) (n : node) :
  forall parent,
    FS.rglob_node pat parent n
    = List.filter (fun p => pat (PyPath.name p))
                  (FS.rglob_node (fun _ => true) parent n).
Proof.
  induction n as [nm|nm cs IH] using node_rect_nested; intros parent; simpl.
  - reflexivity.
  - rewrite List.filter_app, <- matching_as_filter. f_equal.
    rewrite filter_flat_map_comm.
    induction IH as [|c cs Hc _ IHcs]; simpl; [reflexivity|].
    now rewrite Hc, IHcs.
Qed.

Lemma rglob_nodes_as_filter (pat : string -> bool) (here : Path) (ns : list node) :
  FS.rglob_nodes pat here ns
  = List.filter (fun p => pat (PyPath.name p))
                (FS.rglob_nodes (fun _ => true) here ns).
Proof.
  unfold FS.rglob_nodes.
  rewrite List.filter_app, <- matching_as_filter. f_equal.
  rewrite filter_flat_map_comm.
  induction ns as [|c cs IH]; simpl; [reflexivity|].
  now rewrite <- rglob_node_as_filter, IH.
Qed.

Lemma glob_of_listed (fs : list node) (directory : Path) (recursive : bool)
  (ext : string) :
  (if recursive then FS.rglob fs directory (FS.star ext)
   else FS.glob fs directory (FS.star ext))
  = List.filter (fun p => FS.star ext (PyPath.name p))
                (listed fs directory recursive).
Proof.
  unfold listed, FS.rglob, FS.glob.
  destruct recursive; destruct (FS.listdir fs directory); try reflexivity.
  - apply rglob_nodes_as_filter.
  - apply matching_as_filter.
Qed.

Lemma filter_filter_and {A} (p q : A -> bool) (l : list A) :
  List.filter p (List.filter q l) = List.filter (fun x => p x && q x) l.
Proof.
  induction l as [|x l IH]; simpl; [reflexivity|].
  destruct (q x), (p x) eqn:Hp; simpl; rewrite ?Hp, IH; reflexivity.
Qed.

Lemma count_occ_filter (p : Path -> bool) (l : list Path) (f : Path) :
  count_occ Path_eq_dec (List.filter p l) f
  = if p f then count_occ Path_eq_dec l f else 0%nat.
Proof.
  induction l as [|x l IH]; simpl.
  - now destruct (p f).
  - destruct (p x) eqn:Hx; simpl; destruct (Path_eq_dec x f) as [->|Hne];
      rewrite IH; try reflexivity.
    + now rewrite Hx.
    + now rewrite Hx.
Qed.

(** C5 (as amended). The list of candidate files is the concatenation,
    in the order of the extension list, of what each extension's glob
    returns with the hidden paths removed.  It is neither de-duplicated
    nor sorted: a visible path occurs once for every glob of the list that
    matches it, so a path matched by [k] globs is listed [k] times, and
    the paths of one glob keep the order of the directory listing. *)
Theorem walk_lists_a_path_once_per_matching_glob
  (fs : list node) (directory : Path) (recursive : bool)
  (extensions : list string) :
  find_files fs directory recursive extensions
  = List.flat_map
      (fun ext =>
         List.filter (fun f => negb (hidden f) && FS.star ext (PyPath.name f))
                     (listed fs directory recursive))
      extensions
  /\ forall f,
       count_occ Path_eq_dec (find_files fs directory recursive extensions) f
       = if hidden f then 0%nat
         else (globs_matching extensions f
               * count_occ Path_eq_dec (listed fs directory recursive) f)%nat.
Proof.
  assert (Hshape :
    find_files fs directory recursive extensions
    = List.flat_map
        (fun ext =>
           List.filter (fun f => negb (hidden f) && FS.star ext (PyPath.name f))
                       (listed fs directory recursive))
        extensions).
  { rewrite find_files_filter. unfold globbed.
    transitivity
      (List.filter (fun f => negb (hidden f))
         (List.flat_map
            (fun ext => List.filter (fun p => FS.star ext (PyPath.name p))
                                    (listed fs directory recursive))
            extensions)).
    - f_equal. destruct recursive.
      + apply flat_map_ext. intros ext. apply (glob_of_listed fs directory true).
      + apply flat_map_ext. intros ext. apply (glob_of_listed fs directory false).
    - rewrite filter_flat_map_comm. apply flat_map_ext. intros ext.
      apply filter_filter_and. }
  split; [exact Hshape|].
  intros f. rewrite Hshape. clear Hshape. unfold globs_matching.
  induction extensions as [|ext exts IH]; simpl.
  - now destruct (hidden f).
  - rewrite count_occ_app, count_occ_filter.
    rewrite IH.
    destruct (hidden f); simpl; [reflexivity|].
    destruct (FS.star ext (PyPath.name f)); simpl; lia.
Qed.

(** C5 as stated fails: with the file types [PYTHON; SQL; PYTHON] the walk
    of a directory holding [a.sql] and [b.py] lists [b.py] twice and
    before [a.sql]; with the default extensions it lists each once, still
    [b.py] first. *)
Lemma walk_repeats_and_is_unsorted :
  let exts := search_extensions (Some [PYTHON; SQL; PYTHON])
                                (init null_converter) in
  let files := find_files two_file_tree ["root"] true exts in
  let defaults := find_files two_file_tree ["root"] true
                    (search_extensions None (init null_converter)) in
  files = [["root"; "b.py"]; ["root"; "a.sql"]; ["root"; "b.py"]]
  /\ ~ List.NoDup files
  /\ lexically_sorted files = false
  /\ defaults = [["root"; "b.py"]; ["root"; "a.sql"]]
  /\ lexically_sorted defaults = false.
Proof.
  repeat split.
  intros Hnd. inversion Hnd as [|x l Hin _]; subst.
  apply Hin. right. now left.
Qed.

(** ** One record per repository *)

Section BatchLemmas.

Context {G : Type}.
Variable generate : Path -> Py G (list (string * Path)).

Lemma process_single_repo_run (t : Timing) (i : nat) (r : Path) (g : G) :
  _process_single_repo generate t i r g
  = (Ret (result_of t i r (fst (generate r g))), snd (generate r g)).
Proof.
  unfold _process_single_repo, try_except, bind, ret.
  destruct (generate r g) as [[ds|e] g']; reflexivity.
Qed.

Lemma sequential_loop_run (t : Timing) (repos : list Path) :
  forall i acc g,
  exists results g',
    sequential_loop generate t i repos acc g = (Ret (acc ++ results), g')
    /\ length results = length repos
    /\ forall k r,
         nth_error repos k = Some r ->
         nth_error results k
         = Some (result_of t (i + k) r
                   (fst (generate r (state_at generate g repos k)))).
Proof.
  induction repos as [|r0 rest IH]; intros i acc g; simpl.
  - exists [], g. rewrite app_nil_r. repeat split; auto.
    intros k r H. destruct k; discriminate.
  - unfold bind at 1. rewrite process_single_repo_run.
    destruct (IH (S i) (acc ++ [result_of t i r0 (fst (generate r0 g))])
                 (snd (generate r0 g))) as (results & g' & Hrun & Hlen & Hnth).
    exists (result_of t i r0 (fst (generate r0 g)) :: results), g'.
    split; [rewrite Hrun, <- app_assoc; reflexivity|].
    split; [simpl; now rewrite Hlen|].
    intros [|k] r H; simpl in *.
    + injection H as <-. now rewrite Nat.add_0_r.
    + rewrite (Hnth k r H). now rewrite Nat.add_succ_r.
Qed.

Lemma omap_total {A B} (f : A -> option B) (l : list A) :
  (forall i, In i l -> exists y, f i = Some y) ->
  length (omap f l) = length l
  /\ forall j i, nth_error l j = Some i -> nth_error (omap f l) j = f i.
Proof.
  induction l as [|x l IH]; intros Hf; simpl.
  - split; [reflexivity|]. intros j i H. destruct j; discriminate.
  - destruct (Hf x (or_introl eq_refl)) as [y Hy].
    destruct IH as [Hlen Hnth]; [intros i Hi; apply Hf; now right|].
    rewrite Hy. split; [simpl; f_equal; exact Hlen|].
    intros [|j] i H; simpl in H |- *; [now injection H as <-|now apply Hnth].
Qed.

Lemma completion_in_range (pool : Pool) (n : nat) :
  Permutation (completion pool) (seq 0 n) ->
  (forall i, In i (completion pool) <-> (i < n)%nat)
  /\ length (completion pool) = n.
Proof.
  intros Hperm. split.
  - intros i. split; intros H.
    + apply (Permutation_in _ Hperm), in_seq in H. lia.
    + apply (Permutation_in _ (Permutation_sym Hperm)), in_seq. lia.
  - rewrite (Permutation_length Hperm). apply length_seq.
Qed.

Lemma collected_in_range (t : Timing) (pool : Pool) (g : G)
  (repos : list Path) (i : nat) :
  (i < length repos)%nat ->
  exists r, nth_error repos i = Some r
    /\ collected generate t pool g repos i
       = Some match fault pool i with
              | Some e => failed_result t i r e
              | None => result_of t i r (fst (generate r g))
              end.
Proof.
  intros Hi. unfold collected.
  destruct (nth_error repos i) as [r|] eqn:Hr.
  - exists r. split; [reflexivity|]. f_equal.
    destruct (fault pool i); [reflexivity|].
    now rewrite process_single_repo_run.
  - apply nth_error_None in Hr. lia.
Qed.

Lemma process_parallel_run (t : Timing) (pool : Pool) (repos : list Path) (g : G) :
  Permutation (completion pool) (seq 0 (length repos)) ->
  exists results,
    _process_parallel generate t pool repos g = (Ret results, g)
    /\ length results = length repos
    /\ forall j i,
         nth_error (completion pool) j = Some i ->
         exists r,
           nth_error repos i = Some r
           /\ nth_error results j
              = Some match fault pool i with
                     | Some e => failed_result t i r e
                     | None => result_of t i r (fst (generate r g))
                     end.
Proof.
  intros Hperm.
  destruct (completion_in_range pool _ Hperm) as [Hin Hlen].
  destruct (omap_total (collected generate t pool g repos) (completion pool))
    as [Hl Hnth].
  { intros i Hi. apply Hin in Hi.
    destruct (collected_in_range t pool g repos i Hi) as (r & _ & ->).
    eauto. }
  exists (omap (collected generate t pool g repos) (completion pool)).
  split; [reflexivity|]. split; [now rewrite Hl|].
  intros j i Hj.
  assert (Hi : (i < length repos)%nat) by (apply Hin; eapply nth_error_In; eauto).
  destruct (collected_in_range t pool g repos i Hi) as (r & Hr & Hc).
  exists r. split; [exact Hr|]. now rewrite (Hnth j i Hj).
Qed.

End BatchLemmas.




(** ** Summary statistics *)

Lemma filter_length_tally (h : RepoResult -> bool) (l : list RepoResult) :
  length (List.filter h l) = tally h (fun _ => 1%nat) l.
Proof.
  induction l as [|x l IH]; simpl; [reflexivity|].
  destruct (h x); simpl; now rewrite IH.
Qed.

Lemma length_tally (l : list RepoResult) :
  length l = tally (fun _ => true) (fun _ => 1%nat) l.
Proof. induction l as [|x l IH]; simpl; [reflexivity|now rewrite IH]. Qed.

Lemma total_docs_tally (l : list RepoResult) :
  _total_docs_generated l = tally is_success docs_len l.
Proof.
  unfold _total_docs_generated.
  transitivity (list_sum (List.map docs_len (List.filter is_success l))).
  - now destruct (List.filter is_success l).
  - induction l as [|x l IH]; simpl; [reflexivity|].
    destruct (is_success x); simpl; now rewrite IH.
Qed.

Lemma summary_tallies (l : list RepoResult) :
  summary l
  = {| total_repos := tally (fun _ => true) (fun _ => 1%nat) l;
       successful := tally is_success (fun _ => 1%nat) l;
       failed := tally is_failed (fun _ => 1%nat) l;
       total_docs_generated := tally is_success docs_len l |}.
Proof.
  unfold summary.
  now rewrite !filter_length_tally, <- length_tally, total_docs_tally.
Qed.









(** ** Parallel against sequential *)

Section ModesAgree.

Context {G : Type}.
Variable generate : Path -> Py G (list (string * Path)).

(** What the generator returns or raises for a repository does not depend
    on the state left by earlier repositories. *)
Hypothesis generate_oblivious :
  forall r g g', fst (generate r g) = fst (generate r g').


End ModesAgree.

Lemma process_directory_run (fs : list node) (directory : Path)
  (recursive : bool) (file_types : option (list FileType)) (b : Builder) :
  process_directory fs directory recursive file_types b
  = (let b' := fold_left (fun b f => after_file fs f b)
                 (find_files fs directory recursive
                    (search_extensions file_types b)) b in
     (Ret (kg_data b'), b')).
Proof.
  unfold process_directory, bind, get.
  now rewrite for_each_process_one.
Qed.

Lemma write_doc_run (o : string -> option exn) (output_dir : Path)
  (doc : string) (b : Builder) :
  write_doc o output_dir doc b
  = (match o (PyPath.str (PyPath.join output_dir doc)) with
     | None => Ret (doc, PyPath.join output_dir doc)
     | Some e => Raise e
     end, b).
Proof.
  unfold write_doc, bind, open_w.
  now destruct (o (PyPath.str (PyPath.join output_dir doc))).
Qed.



(** Five repositories, the third read-only: four successes and one
    failure in both modes, collected in opposite orders. *)
Example five_repositories_one_failure :
  let gen := generate_repo_documentation five_trees r3_read_only in
  let seq_results :=
    match fst (_process_sequential gen no_clock five_repos
                 (init null_converter)) with
    | Ret l => l | Raise _ => [] end in
  let par_results :=
    match fst (_process_parallel gen no_clock reversing_pool five_repos
                 (init null_converter)) with
    | Ret l => l | Raise _ => [] end in
  List.map (fun r => (repo r, status r)) seq_results
  = [("r1", "success"); ("r2", "success"); ("r3", "failed");
     ("r4", "success"); ("r5", "success")]
  /\ List.map (fun r => (repo r, status r)) par_results
     = [("r5", "success"); ("r4", "success"); ("r3", "failed");
        ("r2", "success"); ("r1", "success")]
  /\ summary seq_results
     = {| total_repos := 5; successful := 4; failed := 1;
          total_docs_generated := 24 |}
  /\ summary par_results = summary seq_results.
Proof. vm_compute. repeat split. Qed.

(** * Further properties of the builder *)

(** ** File types and the default registry *)

Lemma lower_ascii_idempotent (c : ascii) :
  PyStr.lower_ascii (PyStr.lower_ascii c) = PyStr.lower_ascii c.
Proof. destruct c as [[] [] [] [] [] [] [] []]; reflexivity. Qed.

Lemma lower_idempotent (s : string) :
  PyStr.lower (PyStr.lower s) = PyStr.lower s.
Proof.
  induction s as [|c s IH]; simpl; [reflexivity|].
  now rewrite lower_ascii_idempotent, IH.
Qed.

Ltac orb_cases H :=
  repeat (apply orb_true_iff in H as [H|H];
          [apply String.eqb_eq in H|]);
  try discriminate H.

(** X1. [FileType.from_extension] returns a file type exactly when the
    lower-cased extension is one of that type's extensions, and [None]
    exactly when it is in no type's list; the lists of the eight types do
    not overlap, so the answer does not depend on the order of the
    enumeration, and it is the same for every letter case of the
    argument. *)
Theorem from_extension_characterised (extension : string) :
  (forall ft,
     from_extension extension = Some ft <->
     PyStr.mem (PyStr.lower extension) (value ft) = true)
  /\ (from_extension extension = None <->
      forall ft, PyStr.mem (PyStr.lower extension) (value ft) = false)
  /\ from_extension (PyStr.lower extension) = from_extension extension.
Proof.
  split; [|split].
  - intros ft. unfold from_extension. split.
    + intros H. apply List.find_some in H. apply H.
    + intros H. unfold PyStr.mem in H.
      destruct ft; simpl in H; orb_cases H; rewrite H; reflexivity.
  - unfold from_extension. split.
    + intros H ft.
      pose proof (List.find_none _ _ H ft) as Hft. apply Hft.
      destruct ft; simpl; tauto.
    + intros H.
      destruct (List.find _ all_file_types) as [ft|] eqn:Hfind; [|reflexivity].
      apply List.find_some in Hfind. destruct Hfind as [_ Hm].
      now rewrite H in Hm.
  - unfold from_extension. now rewrite lower_idempotent.
Qed.

Ltac by_suffix :=
  repeat match goal with
         | |- context [String.eqb ?a ?b] =>
             is_var a; destruct (String.eqb_spec a b) as [->|?]; simpl
         end.

(** X2. In the default registry every processor accepts exactly the files
    whose suffix is one of its supported extensions, no file is accepted
    by two processors, and a processor is found for a file exactly when
    its suffix is one of the extensions that [process_directory] searches
    by default. *)
Theorem default_registry_is_unambiguous
  (converter : NotebookConverter) (f : Path) :
  Forall (fun p => can_process p f
                   = PyStr.mem (PyPath.suffix f) (get_supported_extensions p))
         (processors (init converter))
  /\ (length (List.filter (fun p => can_process p f)
                          (processors (init converter))) <= 1)%nat
  /\ ((exists p, fst (get_processor f (init converter)) = Ret (Some p)) <->
      PyStr.mem (PyPath.suffix f)
                (search_extensions None (init converter)) = true).
Proof.
  split; [|split].
  - repeat constructor; cbn -[PyPath.suffix String.eqb];
      now rewrite ?orb_false_r.
  - cbn -[PyPath.suffix String.eqb]. generalize (PyPath.suffix f). intros s.
    by_suffix; simpl; lia.
  - rewrite get_processor_run.
    cbn -[PyPath.suffix String.eqb]. generalize (PyPath.suffix f). intros s.
    by_suffix; simpl; split; intros H; try discriminate H; eauto;
      destruct H as [p Hp]; discriminate Hp.
Qed.

(** X3. The enumeration and the registry differ on one extension: a file
    whose suffix is listed by some [FileType] has no default processor
    exactly when the suffix is [.csv]; conversely every file that a
    default processor accepts has a file type. *)
Theorem csv_is_the_only_type_without_processor
  (converter : NotebookConverter) (f : Path) :
  (PyStr.mem (PyPath.suffix f) (List.flat_map value all_file_types) = true ->
   (fst (get_processor f (init converter)) = Ret None <->
    PyPath.suffix f = ".csv"))
  /\ ((exists p, fst (get_processor f (init converter)) = Ret (Some p)) ->
      exists ft, from_extension (PyPath.suffix f) = Some ft).
Proof.
  rewrite get_processor_run. unfold from_extension.
  cbn -[PyPath.suffix String.eqb PyStr.lower].
  generalize (PyPath.suffix f). intros s. split.
  - by_suffix; intros H; split; intros H'; congruence.
  - by_suffix; intros [p Hp]; try discriminate Hp; eauto.
Qed.

(** ** Suffixes of names that end with an extension *)

Lemma append_cons (c : ascii) (a b : string) :
  String c a +:+ b = String c (a +:+ b).
Proof. reflexivity. Qed.

Lemma length_append (a b : string) :
  String.length (a +:+ b) = (String.length a + String.length b)%nat.
Proof. induction a as [|c a IH]; simpl; [reflexivity|now rewrite IH]. Qed.

Lemma substring_all (s : string) : substring 0 (String.length s) s = s.
Proof. induction s as [|c s IH]; simpl; [reflexivity|now rewrite IH]. Qed.

Lemma substring_skip (pre t : string) (m : nat) :
  substring (String.length pre) m (pre +:+ t) = substring 0 m t.
Proof. induction pre as [|c pre IH]; simpl; [reflexivity|exact IH]. Qed.

Lemma substring_tail (s : string) :
  forall n, (n <= String.length s)%nat ->
    s = substring 0 n s +:+ substring n (String.length s - n) s.
Proof.
  induction s as [|c s IH]; intros [|n] Hn; simpl in *; try reflexivity.
  - now rewrite substring_all.
  - rewrite append_cons. f_equal. apply IH. lia.
Qed.

Lemma endswith_split (s suf : string) :
  PyStr.endswith s suf = true -> exists pre, s = pre +:+ suf.
Proof.
  unfold PyStr.endswith. intros H.
  apply andb_true_iff in H as [Hlen Heq].
  apply Nat.leb_le in Hlen. apply String.eqb_eq in Heq.
  exists (substring 0 (String.length s - String.length suf) s).
  pose proof (substring_tail s (String.length s - String.length suf)) as H.
  assert (E : (String.length s - (String.length s - String.length suf)
               = String.length suf)%nat) by lia.
  rewrite E, Heq in H. apply H. lia.
Qed.

Lemma rfind_last (c : ascii) (pre rest : string) :
  PyStr.rfind c rest = None ->
  PyStr.rfind c (pre +:+ String c rest) = Some (String.length pre).
Proof.
  intros Hrest. induction pre as [|a pre IH]; simpl.
  - now rewrite Hrest, Ascii.eqb_refl.
  - now rewrite IH.
Qed.

(** A name that ends with [.rest], where [rest] is not empty and has no
    dot, and that is longer than that ending, has it as its suffix. *)
Lemma suffix_of_name_ending (pre rest : string) :
  pre <> "" -> rest <> "" -> PyStr.rfind "." rest = None ->
  PyPath.suffix_of_name (pre +:+ String "." rest) = String "." rest.
Proof.
  intros Hpre Hrest Hdot. unfold PyPath.suffix_of_name.
  rewrite (rfind_last "." pre rest Hdot), length_append.
  assert (0 < String.length pre)%nat as Hp
    by (destruct pre; [congruence|simpl; lia]).
  assert (0 < String.length rest)%nat as Hr
    by (destruct rest; [congruence|simpl; lia]).
  simpl String.length.
  destruct (Nat.ltb_spec 0 (String.length pre)); [|lia].
  destruct (Nat.ltb_spec (String.length pre)
              (String.length pre + S (String.length rest) - 1)); [|lia].
  simpl andb. cbv iota.
  replace (String.length pre + S (String.length rest) - String.length pre)%nat
    with (String.length (String "." rest)) by (simpl; lia).
  now rewrite substring_skip, substring_all.
Qed.

Lemma visible_name (f : Path) :
  hidden f = false -> PyStr.startswith (PyPath.name f) "." = false.
Proof.
  unfold hidden, PyPath.name. induction f as [|x f IH]; simpl; intros H.
  - reflexivity.
  - apply orb_false_elim in H as [Hx Hf].
    destruct f as [|y f']; [exact Hx|]. now apply IH.
Qed.

Lemma dot_first_is_hidden (rest : string) :
  PyStr.startswith (String "." rest) "." = true.
Proof.
  unfold PyStr.startswith. simpl.
  destruct (ascii_dec "." "."); [now destruct rest|congruence].
Qed.

Lemma suffix_of_visible_match (nm rest : string) :
  rest <> "" -> PyStr.rfind "." rest = None ->
  PyStr.endswith nm (String "." rest) = true ->
  PyStr.startswith nm "." = false ->
  PyPath.suffix_of_name nm = String "." rest.
Proof.
  intros Hrest Hdot Hend Hvis.
  destruct (endswith_split _ _ Hend) as [pre ->].
  apply suffix_of_name_ending; auto.
  intros ->. change ("" +:+ String "." rest) with (String "." rest) in Hvis.
  rewrite dot_first_is_hidden in Hvis. discriminate Hvis.
Qed.

Lemma walked_file_matches (fs : list node) (directory : Path)
  (recursive : bool) (extensions : list string) (f : Path) :
  In f (find_files fs directory recursive extensions) ->
  hidden f = false
  /\ In f (listed fs directory recursive)
  /\ exists ext, In ext extensions
                 /\ PyStr.endswith (PyPath.name f) ext = true.
Proof.
  rewrite find_files_filter. intros H.
  apply filter_In in H as [Hg Hh]. apply negb_true_iff in Hh.
  split; [exact Hh|].
  assert (exists ext, In ext extensions
            /\ In f (List.filter (fun p => FS.star ext (PyPath.name p))
                                 (listed fs directory recursive)))
    as (ext & Hext & Hin).
  { unfold globbed in Hg. destruct recursive;
      apply in_flat_map in Hg as (ext & Hext & Hin); exists ext;
      (split; [exact Hext|]).
    - now rewrite <- (glob_of_listed fs directory true).
    - now rewrite <- (glob_of_listed fs directory false). }
  apply filter_In in Hin as [Hl Hm]. split; [exact Hl|].
  exists ext. split; assumption.
Qed.

(** X4. With the default registry and no [file_types] argument, every file
    that the directory walk returns is resolved to a processor, and its
    suffix is one of that processor's extensions: inside
    [process_directory] the "no processor found" branch of [process_file]
    is never taken. *)
Theorem walked_files_have_a_processor
  (fs : list node) (converter : NotebookConverter) (b : Builder)
  (directory : Path) (recursive : bool) (f : Path) :
  processors b = processors (init converter) ->
  In f (find_files fs directory recursive (search_extensions None b)) ->
  exists p,
    get_processor f b = (Ret (Some p), b)
    /\ PyStr.mem (PyPath.suffix f) (get_supported_extensions p) = true.
Proof.
  intros Hp Hin.
  apply walked_file_matches in Hin as (Hvis & _ & ext & Hext & Hend).
  apply visible_name in Hvis.
  unfold search_extensions in Hext. rewrite Hp in Hext.
  rewrite get_processor_run, Hp.
  assert (Hs : PyPath.suffix f = ext).
  { simpl in Hext. unfold PyPath.suffix.
    repeat (destruct Hext as [<-|Hext];
            [apply suffix_of_visible_match; auto; discriminate|]).
    contradiction. }
  cbn -[PyPath.suffix String.eqb]. rewrite Hs. clear Hs Hend.
  simpl in Hext.
  repeat (destruct Hext as [<-|Hext]; [eexists; split; reflexivity|]).
  contradiction.
Qed.

Lemma walked_files_have_a_processor_witness :
  exists p,
    get_processor ["root"; "a"; "b.py"] (init null_converter)
    = (Ret (Some p), init null_converter)
    /\ PyStr.mem (PyPath.suffix ["root"; "a"; "b.py"])
                 (get_supported_extensions p) = true.
Proof.
  apply (walked_files_have_a_processor sample_tree null_converter
           (init null_converter) ["root"] true ["root"; "a"; "b.py"]).
  - reflexivity.
  - simpl. now left.
Defined.

(** ** [process_file] on its own *)


(** ** Ledger and metadata *)




(** ** The counts add up *)

Lemma counts_total_bump (counts : gmap string nat) (k : string) :
  counts_total (bump counts k) = S (counts_total counts).
Proof.
  unfold counts_total, bump.
  assert (Hcomm : forall (m : gmap string nat) (j1 j2 : string) (z1 z2 y : nat),
             j1 <> j2 -> m !! j1 = Some z1 -> m !! j2 = Some z2 ->
             (z1 + (z2 + y) = z2 + (z1 + y))%nat) by (intros; lia).
  destruct (counts !! k) as [n|] eqn:Hk; simpl.
  - rewrite <- insert_delete_eq.
    rewrite map_fold_insert_L; [|apply Hcomm|apply lookup_delete_eq].
    rewrite (map_fold_delete_L _ _ k n counts); [lia|apply Hcomm|exact Hk].
  - rewrite map_fold_insert_L; [lia|apply Hcomm|exact Hk].
Qed.

Lemma counts_total_loop {A} (key : A -> string) (xs : list A)
  (counts : gmap string nat) :
  counts_total (fold_left (fun c x => bump c (key x)) xs counts)
  = (counts_total counts + length xs)%nat.
Proof.
  revert counts. induction xs as [|x xs IH]; intros counts; simpl; [lia|].
  rewrite IH, counts_total_bump. lia.
Qed.

(** X7. The per-type counts of [get_statistics] add up to the totals: the
    entity counts sum to [total_entities] and the counts by file suffix
    sum to [total_files], for every state of the builder. *)
Theorem statistics_counts_add_up (b : Builder) :
  counts_total (entity_types (get_statistics b))
  = total_entities (get_statistics b)
  /\ counts_total (file_types (get_statistics b))
     = total_files (get_statistics b).
Proof.
  simpl. unfold _count_entity_types, _count_file_types.
  rewrite !counts_total_loop. unfold counts_total.
  now rewrite map_fold_empty.
Qed.

(** ** A directory below a hidden one *)

Lemma matching_below (pat : string -> bool) (here : Path) (ns : list node)
  (f : Path) :
  In f (FS.matching pat here ns) -> exists nm, f = here ++ [nm].
Proof.
  unfold FS.matching, PyPath.join. intros H.
  apply in_map_iff in H as (n & <- & _). eauto.
Qed.

Lemma rglob_node_below (pat : string -> bool) (n : node) :
  forall parent f,
    In f (FS.rglob_node pat parent n) -> exists rest, f = parent ++ rest.
Proof.
  induction n as [nm|nm cs IH] using node_rect_nested; intros parent f H;
    simpl in H; [contradiction|].
  apply in_app_or in H as [H|H].
  - apply matching_below in H as [x ->]. unfold PyPath.join.
    rewrite <- app_assoc. eauto.
  - apply in_flat_map in H as (c & Hc & Hf).
    rewrite List.Forall_forall in IH.
    destruct (IH c Hc _ _ Hf) as [rest ->]. unfold PyPath.join.
    rewrite <- app_assoc. eauto.
Qed.

Lemma globbed_below (fs : list node) (directory : Path) (recursive : bool)
  (extensions : list string) (f : Path) :
  In f (globbed fs directory recursive extensions) ->
  exists rest, f = directory ++ rest.
Proof.
  unfold globbed, FS.rglob, FS.glob, FS.rglob_nodes. intros H.
  destruct recursive; apply in_flat_map in H as (ext & _ & H);
    destruct (FS.listdir fs directory) as [ns|]; try contradiction.
  - apply in_app_or in H as [H|H].
    + apply matching_below in H as [x ->]. eauto.
    + apply in_flat_map in H as (c & _ & H).
      now apply rglob_node_below in H.
  - apply matching_below in H as [x ->]. eauto.
Qed.

Lemma filter_none {A} (p : A -> bool) (l : list A) :
  (forall x, In x l -> p x = false) -> List.filter p l = [].
Proof.
  induction l as [|x l IH]; intros H; simpl; [reflexivity|].
  rewrite (H x (or_introl eq_refl)). apply IH. intros y Hy. apply H. now right.
Qed.

(** X8. The hidden-path filter looks at every part of a path, those of
    the directory argument included: when the directory handed to
    [process_directory] has itself a part that starts with a dot (a
    checkout below [.cache], or a path through [..]), every file found
    is filtered out, the walk is empty and the run returns the graph
    unchanged. *)
Theorem hidden_directory_walks_nothing
  (fs : list node) (b : Builder) (directory : Path) (recursive : bool)
  (file_types : option (list FileType)) (extensions : list string) :
  hidden directory = true ->
  find_files fs directory recursive extensions = []
  /\ process_directory fs directory recursive file_types b
     = (Ret (kg_data b), b).
Proof.
  intros Hh.
  assert (Hnone : forall exts, find_files fs directory recursive exts = []).
  { intros exts. rewrite find_files_filter. apply filter_none.
    intros f Hf. apply globbed_below in Hf as [rest ->].
    unfold hidden in *. now rewrite existsb_app, Hh. }
  split; [apply Hnone|].
  rewrite process_directory_run, Hnone. reflexivity.
Qed.

Lemma hidden_directory_walks_nothing_witness :
  globbed hidden_root_tree [".cache"; "repo"] true [".py"]
  = [[".cache"; "repo"; "a.py"]; [".cache"; "repo"; "pkg"; "b.py"]]
  /\ find_files hidden_root_tree [".cache"; "repo"] true [".py"] = []
  /\ process_directory hidden_root_tree [".cache"; "repo"] true None
       (init null_converter)
     = (Ret (kg_data (init null_converter)), init null_converter).
Proof.
  split; [reflexivity|].
  apply (hidden_directory_walks_nothing hidden_root_tree (init null_converter)
           [".cache"; "repo"] true None [".py"]).
  reflexivity.
Defined.

(** ** Export to Cypher statements *)

Lemma collect_all_or_error {S A B} (f : A -> Py S B) (ok : A -> bool)
  (P : exn -> Prop) :
  (forall x s, ok x = true -> exists y, f x s = (Ret y, s)) ->
  (forall x s, ok x = false -> exists e, f x s = (Raise e, s) /\ P e) ->
  forall xs s,
    (forallb ok xs = true ->
     exists ys, collect f xs s = (Ret ys, s) /\ length ys = length xs)
    /\ (forallb ok xs = false ->
        exists e, collect f xs s = (Raise e, s) /\ P e).
Proof.
  intros Hok Hbad. induction xs as [|x xs IH]; intros s; simpl.
  - split; [intros _; exists []; auto|discriminate].
  - unfold bind. destruct (ok x) eqn:Hx; simpl.
    + destruct (Hok x s Hx) as [y ->]. destruct (IH s) as [IH1 IH2]. split.
      * intros H. destruct (IH1 H) as (ys & -> & Hlen).
        exists (y :: ys). split; [reflexivity|simpl; now rewrite Hlen].
      * intros H. destruct (IH2 H) as (e & -> & He). eauto.
    + split; [discriminate|]. intros _.
      destruct (Hbad x s Hx) as (e & -> & He). eauto.
Qed.

Lemma node_statement_run (entity : Entity) (s : Builder) :
  (has_keys ["type"; "name"] entity = true ->
   exists y,
     (ty <- getitem entity "type" ;;
      nm <- getitem entity "name" ;;
      ret ("CREATE (:" +:+ ty +:+ " {name: '" +:+ nm +:+ "', ...})")) s
     = (Ret y, s))
  /\ (has_keys ["type"; "name"] entity = false ->
      exists e,
        (ty <- getitem entity "type" ;;
         nm <- getitem entity "name" ;;
         ret ("CREATE (:" +:+ ty +:+ " {name: '" +:+ nm +:+ "', ...})")) s
        = (Raise e, s)
        /\ exn_class e = "KeyError").
Proof.
  unfold has_keys, bind, getitem, ret, raise. simpl.
  destruct (entity !! "type"), (entity !! "name"); simpl;
    split; intros H; try discriminate H; eauto.
Qed.

Lemma edge_statement_run (rel : Relationship) (s : Builder) :
  (has_keys ["from"; "to"; "type"] rel = true ->
   exists y,
     (src <- getitem rel "from" ;;
      dst <- getitem rel "to" ;;
      ty <- getitem rel "type" ;;
      ret ("MATCH (a), (b) WHERE a.name='" +:+ src +:+ "' AND b.name='"
           +:+ dst +:+ "' CREATE (a)-[:" +:+ ty +:+ "]->(b)")) s
     = (Ret y, s))
  /\ (has_keys ["from"; "to"; "type"] rel = false ->
      exists e,
        (src <- getitem rel "from" ;;
         dst <- getitem rel "to" ;;
         ty <- getitem rel "type" ;;
         ret ("MATCH (a), (b) WHERE a.name='" +:+ src +:+ "' AND b.name='"
              +:+ dst +:+ "' CREATE (a)-[:" +:+ ty +:+ "]->(b)")) s
        = (Raise e, s)
        /\ exn_class e = "KeyError").
Proof.
  unfold has_keys, bind, getitem, ret, raise. simpl.
  destruct (rel !! "from"), (rel !! "to"), (rel !! "type"); simpl;
    split; intros H; try discriminate H; eauto.
Qed.

(** X9. The Cypher export reads ['type'] and ['name'] of every entity and
    ['from'], ['to'] and ['type'] of every relationship by subscript: when
    one of them is missing the export raises [KeyError], and it does so
    before the output file is opened, so nothing is written, whether or
    not the path could be opened; the builder is unchanged. *)
Theorem neo4j_export_needs_every_key
  (o : string -> option exn) (b : Builder) (output_path : string) :
  cypher_ready (kg_data b) = false ->
  exists e,
    export_kg o output_path "neo4j" b = (Raise e, b)
    /\ exn_class e = "KeyError".
Proof.
  intros H. unfold export_kg. simpl. unfold _export_to_neo4j.
  unfold bind at 1. simpl.
  unfold cypher_ready in H.
  match goal with
  | |- context [collect ?f (entities (kg_data b))] =>
      destruct (collect_all_or_error f (has_keys ["type"; "name"])
                  (fun e => exn_class e = "KeyError")
                  (fun x s => proj1 (node_statement_run x s))
                  (fun x s => proj2 (node_statement_run x s))
                  (entities (kg_data b)) b) as [Hn1 Hn2]
  end.
  match goal with
  | |- context [collect ?f (relationships (kg_data b))] =>
      destruct (collect_all_or_error f (has_keys ["from"; "to"; "type"])
                  (fun e => exn_class e = "KeyError")
                  (fun x s => proj1 (edge_statement_run x s))
                  (fun x s => proj2 (edge_statement_run x s))
                  (relationships (kg_data b)) b) as [_ He2]
  end.
  unfold bind at 1.
  destruct (forallb (has_keys ["type"; "name"]) (entities (kg_data b))).
  - destruct (Hn1 eq_refl) as (nodes & -> & _). simpl in H.
    destruct (He2 H) as (e & He & Hc). unfold bind at 1. rewrite He. eauto.
  - destruct (Hn2 eq_refl) as (e & -> & Hc). eauto.
Qed.

Lemma neo4j_export_needs_every_key_witness :
  exists e,
    export_kg read_only "graph.cypher" "neo4j" nameless_builder
    = (Raise e, nameless_builder)
    /\ exn_class e = "KeyError".
Proof.
  apply (neo4j_export_needs_every_key read_only nameless_builder
           "graph.cypher").
  reflexivity.
Defined.

(** X10. When every entity and relationship has the keys it needs, the
    Cypher export opens the output path once: if that fails the error of
    [open] is raised, otherwise exactly one file is written, at the output
    path, holding one statement per entity followed by one per
    relationship, joined by newlines.  The builder is unchanged. *)
Theorem neo4j_export_writes_one_statement_each
  (o : string -> option exn) (b : Builder) (output_path : string) :
  cypher_ready (kg_data b) = true ->
  match o output_path with
  | Some e => export_kg o output_path "neo4j" b = (Raise e, b)
  | None =>
      exists nodes edges,
        export_kg o output_path "neo4j" b
        = (Ret [TextFile output_path
                  (String.concat newline (nodes ++ edges))], b)
        /\ length nodes = length (entities (kg_data b))
        /\ length edges = length (relationships (kg_data b))
  end.
Proof.
  intros H. unfold cypher_ready in H. apply andb_true_iff in H as [HE HR].
  assert (Hrun : exists nodes edges,
             length nodes = length (entities (kg_data b))
             /\ length edges = length (relationships (kg_data b))
             /\ export_kg o output_path "neo4j" b
                = (match o output_path with
                   | Some e => Raise e
                   | None =>
                       Ret [TextFile output_path
                              (String.concat newline (nodes ++ edges))]
                   end, b)).
  { unfold export_kg. simpl. unfold _export_to_neo4j.
    unfold bind at 1. simpl.
    match goal with
    | |- context [collect ?f (entities (kg_data b))] =>
        destruct (collect_all_or_error f (has_keys ["type"; "name"])
                    (fun e => exn_class e = "KeyError")
                    (fun x s => proj1 (node_statement_run x s))
                    (fun x s => proj2 (node_statement_run x s))
                    (entities (kg_data b)) b) as [Hn _]
    end.
    destruct (Hn HE) as (nodes & Hnodes & Hln).
    match goal with
    | |- context [collect ?f (relationships (kg_data b))] =>
        destruct (collect_all_or_error f (has_keys ["from"; "to"; "type"])
                    (fun e => exn_class e = "KeyError")
                    (fun x s => proj1 (edge_statement_run x s))
                    (fun x s => proj2 (edge_statement_run x s))
                    (relationships (kg_data b)) b) as [He _]
    end.
    destruct (He HR) as (edges & Hedges & Hle).
    exists nodes, edges. split; [exact Hln|]. split; [exact Hle|].
    unfold bind at 1. rewrite Hnodes. unfold bind at 1. rewrite Hedges.
    unfold bind, open_w. now destruct (o output_path). }
  destruct Hrun as (nodes & edges & Hln & Hle & Hrun).
  destruct (o output_path) as [e|]; [exact Hrun|].
  exists nodes, edges. split; [exact Hrun|split; assumption].
Qed.

Lemma neo4j_export_writes_one_statement_each_witness :
  exists nodes edges,
    export_kg writable "graph.cypher" "neo4j" small_graph_builder
    = (Ret [TextFile "graph.cypher"
              (String.concat newline (nodes ++ edges))], small_graph_builder)
    /\ length nodes = 2%nat /\ length edges = 1%nat.
Proof.
  apply (neo4j_export_writes_one_statement_each writable small_graph_builder
           "graph.cypher").
  reflexivity.
Defined.

(** ** Discovery of the checkouts *)

Lemma path_leb_total (p : Path) :
  forall q, path_leb p q = false -> path_leb q p = true.
Proof.
  induction p as [|x p IH]; intros [|y q] H; simpl in *;
    try discriminate H; try reflexivity.
  rewrite (String.compare_antisym x y) in H.
  destruct (String.compare y x); simpl in H;
    try discriminate H; try reflexivity.
  now apply IH.
Qed.

Lemma lexically_sorted_cons (p q : Path) (rest : list Path) :
  lexically_sorted (p :: q :: rest)
  = path_leb p q && lexically_sorted (q :: rest).
Proof. reflexivity. Qed.

Lemma lexically_sorted_tail (p : Path) (l : list Path) :
  lexically_sorted (p :: l) = true -> lexically_sorted l = true.
Proof.
  destruct l as [|q rest]; [reflexivity|].
  rewrite lexically_sorted_cons. intros H.
  now apply andb_true_iff in H as [_ H].
Qed.

Lemma insert_sorted_keeps_order (x : Path) (l : list Path) :
  lexically_sorted l = true ->
  lexically_sorted (insert_sorted path_leb x l) = true.
Proof.
  induction l as [|y l IH]; intros Hl; [reflexivity|].
  cbn [insert_sorted]. destruct (path_leb x y) eqn:Hxy.
  - rewrite lexically_sorted_cons, Hxy. exact Hl.
  - pose proof (IH (lexically_sorted_tail _ _ Hl)) as Hins.
    destruct l as [|z rest].
    + cbn [insert_sorted]. rewrite lexically_sorted_cons.
      now rewrite (path_leb_total x y Hxy).
    + cbn [insert_sorted] in *. destruct (path_leb x z) eqn:Hxz.
      * rewrite lexically_sorted_cons, (path_leb_total x y Hxy). exact Hins.
      * rewrite lexically_sorted_cons in Hl |- *.
        apply andb_true_iff in Hl as [Hyz _]. now rewrite Hyz.
Qed.

Lemma sorted_is_sorted (l : list Path) :
  lexically_sorted (sorted path_leb l) = true.
Proof.
  induction l as [|x l IH]; [reflexivity|].
  simpl. now apply insert_sorted_keeps_order.
Qed.

Lemma insert_sorted_Permutation {A} (leb : A -> A -> bool) (x : A) (l : list A) :
  Permutation (insert_sorted leb x l) (x :: l).
Proof.
  induction l as [|y l IH]; simpl; [reflexivity|].
  destruct (leb x y); [reflexivity|].
  rewrite IH. apply perm_swap.
Qed.

Lemma sorted_Permutation {A} (leb : A -> A -> bool) (l : list A) :
  Permutation (sorted leb l) l.
Proof.
  induction l as [|x l IH]; simpl; [reflexivity|].
  rewrite insert_sorted_Permutation. now constructor.
Qed.

Lemma rglob_names (fs : list node) (root : Path) (pat : string -> bool)
  (item : Path) :
  In item (FS.rglob fs root pat) -> pat (PyPath.name item) = true.
Proof.
  unfold FS.rglob. destruct (FS.listdir fs root) as [ns|]; [|contradiction].
  rewrite rglob_nodes_as_filter. intros H.
  now apply filter_In in H as [_ H].
Qed.

Lemma git_entry_of_parent (fs : list node) (root item : Path) :
  In item (FS.rglob fs root (fun nm => String.eqb nm ".git")) ->
  item = parent item ++ [".git"].
Proof.
  intros H. apply rglob_names in H. apply String.eqb_eq in H.
  unfold parent. destruct item as [|x item]; [discriminate H|].
  unfold PyPath.name in H. rewrite <- H.
  apply app_removelast_last. discriminate.
Qed.

(** X11. [_find_git_repos] returns the parents of the [.git] entries
    below the root that are directories, in lexical path order (nested
    checkouts included, a file named [.git] ignored); each returned path
    has a [.git] directory, and every selected entry is returned.  A
    filter keeps the checkouts whose directory name contains it as a
    substring, and an empty filter keeps them all. *)
Theorem find_git_repos_returns_sorted_checkouts
  (fs : list node) (root : Path) (filter_pattern : option string) :
  let items := FS.rglob fs root (fun nm => String.eqb nm ".git") in
  let repos := _find_git_repos fs root filter_pattern in
  lexically_sorted repos = true
  /\ Forall (fun r => In (r ++ [".git"]) items
                      /\ is_dir fs (r ++ [".git"]) = true) repos
  /\ (forall item, In item items ->
        selected fs filter_pattern item = true -> In (parent item) repos)
  /\ (forall c pat, filter_pattern = Some (String c pat) ->
        Forall (fun r => contains (String c pat) (PyPath.name r) = true) repos)
  /\ _find_git_repos fs root (Some "") = _find_git_repos fs root None
  /\ Forall (fun r => In r (_find_git_repos fs root None)) repos.
Proof.
  intros items repos. unfold repos, _find_git_repos. fold items.
  assert (Hsel : forall fp r,
            In r (sorted path_leb
                    (List.map parent (List.filter (selected fs fp) items))) ->
            exists item, In item items /\ selected fs fp item = true
                         /\ r = parent item).
  { intros fp r Hr.
    apply (Permutation_in _ (sorted_Permutation _ _)) in Hr.
    apply in_map_iff in Hr as (item & <- & Hitem).
    apply filter_In in Hitem as [Hin Hs]. eauto. }
  assert (Hback : forall fp item,
            In item items -> selected fs fp item = true ->
            In (parent item)
               (sorted path_leb
                  (List.map parent (List.filter (selected fs fp) items)))).
  { intros fp item Hin Hs.
    apply (Permutation_in _ (Permutation_sym (sorted_Permutation _ _))).
    apply in_map. apply filter_In. now split. }
  split; [apply sorted_is_sorted|].
  split.
  { apply List.Forall_forall. intros r Hr.
    destruct (Hsel _ _ Hr) as (item & Hin & Hs & ->).
    rewrite <- (git_entry_of_parent fs root item Hin).
    split; [exact Hin|].
    unfold selected in Hs. now apply andb_true_iff in Hs as [Hs _]. }
  split; [apply Hback|].
  split.
  { intros c pat ->. apply List.Forall_forall. intros r Hr.
    destruct (Hsel _ _ Hr) as (item & _ & Hs & ->).
    unfold selected in Hs. now apply andb_true_iff in Hs as [_ Hs]. }
  split; [reflexivity|].
  apply List.Forall_forall. intros r Hr.
  destruct (Hsel _ _ Hr) as (item & Hin & Hs & ->).
  apply Hback; [exact Hin|].
  unfold selected in *. apply andb_true_iff in Hs as [Hs _].
  now rewrite Hs.
Qed.

(** ** Records of the two drivers *)

Section DriverRecords.

Context {G : Type}.
Variable generate : Path -> Py G (list (string * Path)).


Lemma result_of_status (t : Timing) (i : nat) (r : Path)
  (o : outcome (list (string * Path))) :
  status (result_of t i r o) = "success" \/ status (result_of t i r o) = "failed".
Proof. destruct o; simpl; auto. Qed.

Lemma sequential_results (t : Timing) (repos : list Path) (g : G) :
  exists results g',
    _process_sequential generate t repos g = (Ret results, g')
    /\ length results = length repos
    /\ Forall2 (fun r x => exists i g0,
                  x = result_of t i r (fst (generate r g0)))
               repos results.
Proof.
  destruct (sequential_loop_run generate t repos 0 [] g)
    as (results & g' & Hrun & Hlen & Hnth).
  exists results, g'. split; [exact Hrun|]. split; [exact Hlen|].
  clear Hrun. revert Hlen Hnth. generalize 0%nat as i. revert results g.
  induction repos as [|r rest IH]; intros [|x results] g i Hlen Hnth;
    try discriminate Hlen; constructor.
  - specialize (Hnth 0%nat r eq_refl). simpl in Hnth. injection Hnth as ->.
    eauto.
  - apply (IH results (snd (generate r g)) (S i)).
    + simpl in Hlen. lia.
    + intros k r' Hk. specialize (Hnth (S k) r' Hk). simpl in Hnth.
      now rewrite Nat.add_succ_r in Hnth.
Qed.

Lemma parallel_results (t : Timing) (pool : Pool) (repos : list Path) (g : G) :
  Permutation (completion pool) (seq 0 (length repos)) ->
  exists results,
    _process_parallel generate t pool repos g = (Ret results, g)
    /\ length results = length repos
    /\ Forall2 (fun i x => exists r,
                  nth_error repos i = Some r
                  /\ (x = result_of t i r (fst (generate r g))
                      \/ exists e, x = failed_result t i r e))
               (completion pool) results.
Proof.
  intros Hperm.
  destruct (process_parallel_run generate t pool repos g Hperm)
    as (results & Hrun & Hlen & Hnth).
  exists results. split; [exact Hrun|]. split; [exact Hlen|].
  assert (Hl : length (completion pool) = length results).
  { rewrite Hlen, (Permutation_length Hperm). apply length_seq. }
  clear Hrun Hlen Hperm. revert results Hl Hnth.
  induction (completion pool) as [|i l IH]; intros [|x results] Hl Hnth;
    try discriminate Hl; constructor.
  - destruct (Hnth 0%nat i eq_refl) as (r & Hr & Hx). simpl in Hx.
    injection Hx as ->. exists r. split; [exact Hr|].
    destruct (fault pool i); eauto.
  - apply IH; [simpl in Hl; lia|].
    intros j k Hj. apply (Hnth (S j) k Hj).
Qed.

End DriverRecords.

Lemma valid_statuses_counts (results : list RepoResult) :
  Forall (fun x => status x = "success" \/ status x = "failed") results ->
  failed (summary results) = failed_count results
  /\ total_repos (summary results)
     = (successful (summary results) + failed (summary results))%nat.
Proof.
  intros H. unfold failed_count, success_count. simpl.
  induction H as [|x l Hx _ IH]; simpl; [auto|].
  unfold is_success, is_failed in *.
  destruct Hx as [-> | ->]; simpl; lia.
Qed.

(** X12. Every record produced by either driver has status ['success'] or
    ['failed'], so the two ways in which the module counts failures agree
    on a driver's output: the count of [_print_summary] (all records minus
    the successes) equals the count of [generate_summary_report] (records
    whose status is ['failed']), and successes plus failures make up the
    total. *)
Theorem driver_statuses_and_failure_counts
  {G : Type} (generate : Path -> Py G (list (string * Path)))
  (t : Timing) (pool : Pool) (repos : list Path) (g : G)
  (results : list RepoResult) :
  Permutation (completion pool) (seq 0 (length repos)) ->
  fst (_process_sequential generate t repos g) = Ret results
  \/ fst (_process_parallel generate t pool repos g) = Ret results ->
  Forall (fun x => status x = "success" \/ status x = "failed") results
  /\ failed (summary results) = failed_count results
  /\ total_repos (summary results)
     = (successful (summary results) + failed (summary results))%nat.
Proof.
  intros Hperm Hres.
  assert (Hvalid : Forall (fun x => status x = "success" \/ status x = "failed")
                          results).
  { destruct Hres as [Hres|Hres].
    - destruct (sequential_results generate t repos g)
        as (rs & g' & Hrun & _ & H2).
      rewrite Hrun in Hres. injection Hres as <-. clear Hrun Hperm.
      induction H2 as [|r x l l' (i & g0 & ->) _ IH]; constructor; auto.
      apply result_of_status.
    - destruct (parallel_results generate t pool repos g Hperm)
        as (rp & Hrun & _ & H2).
      rewrite Hrun in Hres. injection Hres as <-. clear Hrun Hperm.
      induction H2 as [|i x l l' (r & _ & [-> | [e ->]]) _ IH];
        constructor; auto; try apply result_of_status. }
  split; [exact Hvalid|]. now apply valid_statuses_counts.
Qed.

Lemma driver_statuses_and_failure_counts_witness :
  exists results,
    fst (_process_sequential exhausting_generator no_clock five_repos tt)
    = Ret results
    /\ failed (summary results) = failed_count results
    /\ total_repos (summary results)
       = (successful (summary results) + failed (summary results))%nat.
Proof.
  assert (H : Permutation (completion reversing_pool)
                          (seq 0 (length five_repos)))
    by (apply Permutation_sym, Permutation_rev).
  eexists. split; [reflexivity|].
  refine (proj2 (driver_statuses_and_failure_counts exhausting_generator
                   no_clock reversing_pool five_repos tt _ H _)).
  left. reflexivity.
Defined.



(** ** The shared builder of the sequential driver *)

Lemma sequential_loop_final {G} (generate : Path -> Py G (list (string * Path)))
  (t : Timing) (repos : list Path) :
  forall i acc g,
    snd (sequential_loop generate t i repos acc g)
    = fold_left (fun g r => snd (generate r g)) repos g.
Proof.
  induction repos as [|r rest IH]; intros i acc g; simpl; [reflexivity|].
  unfold bind at 1. rewrite process_single_repo_run. apply IH.
Qed.

Lemma state_at_fold {G} (generate : Path -> Py G (list (string * Path)))
  (repos : list Path) :
  forall k g,
    state_at generate g repos k
    = fold_left (fun g r => snd (generate r g)) (firstn k repos) g.
Proof.
  induction repos as [|r rest IH]; intros [|k] g; simpl; try reflexivity.
  apply IH.
Qed.

Lemma write_doc_state (o : string -> option exn) (r : Path) (d : string)
  (b : Builder) :
  snd (write_doc o r d b) = b.
Proof. now rewrite write_doc_run. Qed.

Lemma generator_final_state (fs : list node) (o : string -> option exn)
  (r : Path) (b : Builder) :
  snd (generate_repo_documentation fs o r b)
  = fold_left (fun b f => after_file fs f b)
              (find_files fs r true (search_extensions None b)) b.
Proof.
  unfold generate_repo_documentation, bind.
  rewrite process_directory_run. cbv beta iota zeta.
  apply collect_state. intros d s. apply write_doc_state.
Qed.

Lemma generator_steps (fs : list node) (o : string -> option exn)
  (b0 : Builder) (repos : list Path) :
  forall b, processors b = processors b0 ->
    let b' := fold_left
                (fun b r => snd (generate_repo_documentation fs o r b))
                repos b in
    processors b' = processors b0
    /\ files_processed (kg_data b')
       = files_processed (kg_data b)
         ++ List.flat_map (repo_ledger fs b0) repos.
Proof.
  induction repos as [|r rest IH]; intros b Hb; simpl.
  - rewrite app_nil_r. auto.
  - rewrite generator_final_state.
    destruct (fold_after_file fs b0
                (find_files fs r true (search_extensions None b)) b Hb)
      as (Hp & _ & _ & Hf).
    destruct (IH _ Hp) as (Hp' & Hf').
    split; [exact Hp'|]. rewrite Hf', Hf, <- app_assoc.
    unfold repo_ledger, search_extensions. now rewrite Hb.
Qed.

(** X14. The sequential driver works on one builder that is never reset:
    when it reaches the repository at position [k], [files_processed]
    already holds, after what the builder had at the start, the files of
    the [k] repositories before it, and after the run it holds those of
    all of them.  The parallel driver leaves the builder of the batch
    object as it was. *)
Theorem sequential_driver_accumulates_one_graph
  (fs : list node) (o : string -> option exn) (b : Builder)
  (repos : list Path) (t : Timing) (pool : Pool) :
  (forall k,
     files_processed
       (kg_data (state_at (generate_repo_documentation fs o) b repos k))
     = files_processed (kg_data b)
       ++ List.flat_map (repo_ledger fs b) (firstn k repos))
  /\ files_processed
       (kg_data (snd (_process_sequential (generate_repo_documentation fs o)
                        t repos b)))
     = files_processed (kg_data b) ++ List.flat_map (repo_ledger fs b) repos
  /\ snd (_process_parallel (generate_repo_documentation fs o) t pool repos b)
     = b.
Proof.
  split; [|split].
  - intros k. rewrite state_at_fold.
    apply (generator_steps fs o b (firstn k repos) b eq_refl).
  - unfold _process_sequential. rewrite sequential_loop_final.
    apply (generator_steps fs o b repos b eq_refl).
  - reflexivity.
Qed.

(** Two checkouts: the second is documented from a graph that already
    holds the file of the first. *)
Example second_repository_sees_the_first :
  let gen := generate_repo_documentation two_repos_tree writable in
  files_processed
    (kg_data (state_at gen (init null_converter) [["r1"]; ["r2"]] 1))
  = ["r1/a.py"]
  /\ files_processed
       (kg_data (snd (_process_sequential gen no_clock [["r1"]; ["r2"]]
                        (init null_converter))))
     = ["r1/a.py"; "r2/b.py"].
Proof. split; reflexivity. Qed.

(** ** Parallel against sequential, for this generator *)





(** ** The documents of a repository *)

Lemma collect_pure {S A B} (f : A -> Py S B) (h : A -> outcome B) :
  (forall x s, f x s = (h x, s)) ->
  forall xs s, collect f xs s = (all_or_first_error h xs, s).
Proof.
  intros Hf. induction xs as [|x xs IH]; intros s; simpl; [reflexivity|].
  unfold bind. rewrite Hf. destruct (h x) as [y|e]; [|reflexivity].
  rewrite IH. now destruct (all_or_first_error h xs).
Qed.

Lemma all_returned {A B} (h : A -> outcome B) (xs : list A) :
  forall ys,
    all_or_first_error h xs = Ret ys <->
    Forall2 (fun x y => h x = Ret y) xs ys.
Proof.
  induction xs as [|x xs IH]; intros ys; simpl.
  - split.
    + intros [= <-]. constructor.
    + intros H. inversion H. reflexivity.
  - destruct (h x) as [y|e0] eqn:Hx.
    + destruct (all_or_first_error h xs) as [ys0|e1] eqn:Hc; split.
      * intros [= <-]. constructor; [exact Hx|]. now apply IH.
      * intros H. inversion H as [|? y' ? ys' Hy Hrest]; subst.
        rewrite Hx in Hy. injection Hy as <-.
        apply IH in Hrest. now injection Hrest as <-.
      * discriminate.
      * intros H. inversion H as [|? y' ? ys' Hy Hrest]; subst.
        apply IH in Hrest. discriminate Hrest.
    + split; [discriminate|].
      intros H. inversion H; subst. congruence.
Qed.



Lemma generator_docs_length (fs : list node) (o : string -> option exn)
  (r : Path) (b : Builder) (ds : list (string * Path)) :
  fst (generate_repo_documentation fs o r b) = Ret ds -> length ds = 6%nat.
Proof.
  unfold generate_repo_documentation, bind.
  rewrite process_directory_run. cbv beta iota zeta.
  rewrite (collect_pure (write_doc o r) _ (write_doc_run o r)). cbn [fst].
  intros H. apply all_returned, Forall2_length in H. now rewrite <- H.
Qed.

Lemma six_each (results : list RepoResult) :
  Forall (fun x => is_success x = true -> docs_len x = 6%nat) results ->
  tally is_success docs_len results
  = (6 * tally is_success (fun _ => 1%nat) results)%nat.
Proof.
  induction 1 as [|x l Hx _ IH]; simpl; [reflexivity|].
  destruct (is_success x); [rewrite (Hx eq_refl)|]; lia.
Qed.

(** X16. With the documentation generator of this repository every
    ['success'] record of either driver lists exactly six documents, so
    [total_docs_generated] of the summary is six times the number of
    successes. *)
Theorem success_records_hold_six_documents
  (fs : list node) (o : string -> option exn) (b : Builder)
  (repos : list Path) (t : Timing) (pool : Pool)
  (results : list RepoResult) :
  Permutation (completion pool) (seq 0 (length repos)) ->
  fst (_process_sequential (generate_repo_documentation fs o) t repos b)
  = Ret results
  \/ fst (_process_parallel (generate_repo_documentation fs o) t pool repos b)
     = Ret results ->
  Forall (fun x => status x = "success" -> docs_len x = 6%nat) results
  /\ total_docs_generated (summary results)
     = (6 * successful (summary results))%nat.
Proof.
  intros Hperm Hres.
  assert (Hone : forall i r g0,
            is_success (result_of t i r
                          (fst (generate_repo_documentation fs o r g0))) = true ->
            docs_len (result_of t i r
                        (fst (generate_repo_documentation fs o r g0))) = 6%nat).
  { intros i r g0.
    destruct (fst (generate_repo_documentation fs o r g0)) as [ds|e] eqn:Hg;
      simpl; [intros _|discriminate].
    unfold docs_len. simpl. rewrite length_map.
    now apply (generator_docs_length fs o r g0). }
  assert (Hall : Forall (fun x => is_success x = true -> docs_len x = 6%nat)
                        results).
  { destruct Hres as [Hres|Hres].
    - destruct (sequential_results (generate_repo_documentation fs o) t repos b)
        as (rs & g' & Hrun & _ & H2).
      rewrite Hrun in Hres. injection Hres as <-. clear Hrun Hperm.
      induction H2 as [|r x l l' (i & g0 & ->) _ IH]; constructor; auto.
    - destruct (parallel_results (generate_repo_documentation fs o) t pool
                  repos b Hperm) as (rp & Hrun & _ & H2).
      rewrite Hrun in Hres. injection Hres as <-. clear Hrun Hperm.
      induction H2 as [|i x l l' (r & _ & [-> | [e ->]]) _ IH];
        constructor; auto. discriminate. }
  split.
  - apply List.Forall_forall. intros x Hx Hs.
    rewrite List.Forall_forall in Hall. apply (Hall x Hx).
    unfold is_success. now rewrite Hs.
  - rewrite summary_tallies. simpl. now apply six_each.
Qed.

Lemma success_records_hold_six_documents_witness :
  exists results,
    fst (_process_sequential
           (generate_repo_documentation five_trees r3_read_only)
           no_clock five_repos (init null_converter)) = Ret results
    /\ total_docs_generated (summary results)
       = (6 * successful (summary results))%nat.
Proof.
  assert (H : Permutation (completion reversing_pool)
                          (seq 0 (length five_repos)))
    by (apply Permutation_sym, Permutation_rev).
  eexists. split; [reflexivity|].
  refine (proj2 (success_records_hold_six_documents five_trees r3_read_only
                   (init null_converter) five_repos no_clock reversing_pool
                   _ H _)).
  left. reflexivity.
Defined.

(** ** Counting by suffix and the primary language *)

Section CounterLemmas.

Context {K : Type}.
Variable key_eqb : K -> K -> bool.
Hypothesis key_eqb_spec : forall a b, key_eqb a b = true <-> a = b.

Lemma key_eqb_refl (a : K) : key_eqb a a = true.
Proof. now apply key_eqb_spec. Qed.

Lemma count_key_get (k k' : K) (counts : list (K * nat)) :
  counter_get key_eqb (count_key key_eqb k counts) k'
  = (counter_get key_eqb counts k' + if key_eqb k k' then 1 else 0)%nat.
Proof.
  unfold counter_get. induction counts as [|[k0 n] rest IH]; simpl.
  - destruct (key_eqb k k'); reflexivity.
  - destruct (key_eqb k0 k) eqn:H0; simpl.
    + apply key_eqb_spec in H0. subst k0.
      destruct (key_eqb k k'); simpl; lia.
    + destruct (key_eqb k0 k') eqn:H1; simpl.
      * apply key_eqb_spec in H1. subst k0.
        destruct (key_eqb k k') eqn:H2; [|lia].
        apply key_eqb_spec in H2. subst k'.
        rewrite key_eqb_refl in H0. discriminate H0.
      * exact IH.
Qed.

Lemma count_key_keys (k : K) (counts : list (K * nat)) (x : K) :
  In x (List.map fst (count_key key_eqb k counts))
  <-> x = k \/ In x (List.map fst counts).
Proof.
  induction counts as [|[k0 n] rest IH]; simpl.
  - intuition congruence.
  - destruct (key_eqb k0 k) eqn:H0; simpl.
    + apply key_eqb_spec in H0. subst k0. intuition congruence.
    + rewrite IH. intuition congruence.
Qed.

Lemma count_key_NoDup (k : K) (counts : list (K * nat)) :
  List.NoDup (List.map fst counts) ->
  List.NoDup (List.map fst (count_key key_eqb k counts)).
Proof.
  induction counts as [|[k0 n] rest IH]; simpl; intros H.
  - constructor; [intros []|constructor].
  - inversion H as [|? ? Hin Hnd]; subst.
    destruct (key_eqb k0 k) eqn:H0; simpl.
    + constructor; assumption.
    + constructor; [|now apply IH].
      rewrite count_key_keys. intros [->|Hk]; [|contradiction].
      rewrite key_eqb_refl in H0. discriminate H0.
Qed.

Lemma counter_get_in (counts : list (K * nat)) (k : K) (n : nat) :
  List.NoDup (List.map fst counts) -> In (k, n) counts ->
  counter_get key_eqb counts k = n.
Proof.
  unfold counter_get. induction counts as [|[k0 m] rest IH]; simpl;
    intros Hnd Hin; [contradiction|].
  inversion Hnd as [|? ? Hnot Hnd']; subst.
  destruct Hin as [[= -> ->]|Hin].
  - now rewrite key_eqb_refl.
  - destruct (key_eqb k0 k) eqn:H0.
    + apply key_eqb_spec in H0. subst k0. exfalso. apply Hnot.
      apply in_map_iff. exists (k, n). auto.
    + now apply IH.
Qed.

Lemma argmax_in (best : K * nat) (rest : list (K * nat)) :
  In (argmax best rest) (best :: rest).
Proof.
  revert best. induction rest as [|kv rest IH]; intros best; simpl.
  - now left.
  - destruct (IH (if (snd best <? snd kv)%nat then kv else best)) as [H|H].
    + rewrite <- H. destruct (snd best <? snd kv)%nat; auto.
    + auto.
Qed.

Lemma argmax_bound (best : K * nat) (rest : list (K * nat)) :
  forall kv, In kv (best :: rest) -> (snd kv <= snd (argmax best rest))%nat.
Proof.
  revert best. induction rest as [|x rest IH]; intros best kv Hin; simpl.
  - destruct Hin as [<-|[]]. lia.
  - assert (Hstep : (snd best <= snd (if (snd best <? snd x)%nat then x else best)
                     /\ snd x <= snd (if (snd best <? snd x)%nat then x else best))%nat).
    { destruct (Nat.ltb_spec (snd best) (snd x)); lia. }
    set (best' := if (snd best <? snd x)%nat then x else best) in *.
    pose proof (IH best' best' (or_introl eq_refl)) as Hb.
    destruct Hin as [<-|[<-|Hin]].
    + lia.
    + lia.
    + apply IH. now right.
Qed.

End CounterLemmas.

Lemma suffix_counts_spec (files : list string) :
  List.NoDup (List.map fst (suffix_counts files))
  /\ (forall s, counter_get String.eqb (suffix_counts files) s
                = files_with_suffix s files)
  /\ (forall s, In s (List.map fst (suffix_counts files))
                <-> In s (List.map suffix_of_str files)).
Proof.
  unfold suffix_counts, files_with_suffix.
  assert (H : forall counts,
            List.NoDup (List.map fst counts) ->
            let c := fold_left
                       (fun counts file =>
                          count_key String.eqb (suffix_of_str file) counts)
                       files counts in
            List.NoDup (List.map fst c)
            /\ (forall s, counter_get String.eqb c s
                          = (counter_get String.eqb counts s
                             + length (List.filter
                                 (fun f => String.eqb (suffix_of_str f) s)
                                 files))%nat)
            /\ (forall s, In s (List.map fst c)
                          <-> In s (List.map fst counts)
                              \/ In s (List.map suffix_of_str files))).
  { induction files as [|f files IH]; intros counts Hnd; simpl.
    - split; [exact Hnd|]. split; [intros; lia|intros; tauto].
    - destruct (IH (count_key String.eqb (suffix_of_str f) counts))
        as (H1 & H2 & H3).
      { apply count_key_NoDup; [apply String.eqb_eq|exact Hnd]. }
      split; [exact H1|]. split.
      + intros s. rewrite H2, (count_key_get _ String.eqb_eq).
        destruct (String.eqb (suffix_of_str f) s); simpl; lia.
      + intros s. rewrite H3, (count_key_keys _ String.eqb_eq).
        intuition. }
  destruct (H [] (List.NoDup_nil _)) as (H1 & H2 & H3).
  split; [exact H1|]. split.
  - intros s. now rewrite H2.
  - intros s. rewrite H3. simpl. tauto.
Qed.

(** X17. The primary language is read off a most frequent suffix of
    [files_processed]: with no processed file both generators answer
    ['unknown']; otherwise the suffix chosen is the suffix of some
    processed file, no suffix has more files than it, and
    [_detect_primary_language] answers the language that its table gives
    for that suffix, ['unknown'] when the table has none (as for
    notebooks, SQL and office documents). *)
Theorem primary_language_is_a_most_frequent_suffix (kg : KG) :
  (files_processed kg = [] ->
   primary_language kg = "unknown" /\ _detect_primary_language kg = "unknown")
  /\ (files_processed kg <> [] ->
      let ext := primary_language kg in
      In ext (List.map suffix_of_str (files_processed kg))
      /\ (forall s, (files_with_suffix s (files_processed kg)
                     <= files_with_suffix ext (files_processed kg))%nat)
      /\ _detect_primary_language kg = dict_get ext_to_language ext "unknown").
Proof.
  unfold primary_language, _detect_primary_language.
  destruct (suffix_counts_spec (files_processed kg)) as (Hnd & Hget & Hkeys).
  split.
  - intros ->. split; reflexivity.
  - intros Hne.
    destruct (suffix_counts (files_processed kg)) as [|kv rest] eqn:Hc.
    + destruct (files_processed kg) as [|f fs]; [congruence|].
      exfalso. apply (proj2 (Hkeys (suffix_of_str f))). simpl. now left.
    + cbv zeta.
      pose proof (argmax_in kv rest) as Hin.
      pose proof (argmax_bound kv rest) as Hb.
      destruct (argmax kv rest) as [ext n] eqn:Ha. simpl fst.
      split; [|split; [|reflexivity]].
      * apply Hkeys. apply in_map_iff. exists (ext, n). auto.
      * intros s. rewrite <- !Hget.
        rewrite (counter_get_in _ String.eqb_eq _ ext n Hnd Hin).
        unfold counter_get.
        destruct (List.find _ (kv :: rest)) as [[s' m]|] eqn:Hf; [|lia].
        apply List.find_some in Hf as [Hf _]. apply (Hb _ Hf).
Qed.

(** ** Sorting *)

Section SortedLemmas.

Context {A : Type}.
Variable leb : A -> A -> bool.
Hypothesis leb_total : forall x y, leb x y = false -> leb y x = true.

Lemma adjacent_cons (x y : A) (rest : list A) :
  adjacent leb (x :: y :: rest) = leb x y && adjacent leb (y :: rest).
Proof. reflexivity. Qed.

Lemma adjacent_tail (x : A) (l : list A) :
  adjacent leb (x :: l) = true -> adjacent leb l = true.
Proof.
  destruct l as [|y rest]; [reflexivity|].
  rewrite adjacent_cons. intros H. now apply andb_true_iff in H as [_ H].
Qed.

Lemma insert_sorted_adjacent (x : A) (l : list A) :
  adjacent leb l = true -> adjacent leb (insert_sorted leb x l) = true.
Proof.
  induction l as [|y l IH]; intros Hl; [reflexivity|].
  cbn [insert_sorted]. destruct (leb x y) eqn:Hxy.
  - rewrite adjacent_cons, Hxy. exact Hl.
  - pose proof (IH (adjacent_tail _ _ Hl)) as Hins.
    destruct l as [|z rest].
    + cbn [insert_sorted]. rewrite adjacent_cons.
      now rewrite (leb_total x y Hxy).
    + cbn [insert_sorted] in *. destruct (leb x z) eqn:Hxz.
      * rewrite adjacent_cons, (leb_total x y Hxy). exact Hins.
      * rewrite adjacent_cons in Hl |- *.
        apply andb_true_iff in Hl as [Hyz _]. now rewrite Hyz.
Qed.

Lemma sorted_adjacent (l : list A) : adjacent leb (sorted leb l) = true.
Proof.
  induction l as [|x l IH]; [reflexivity|].
  simpl. now apply insert_sorted_adjacent.
Qed.

Lemma firstn_adjacent (n : nat) (l : list A) :
  adjacent leb l = true -> adjacent leb (firstn n l) = true.
Proof.
  revert l. induction n as [|n IH]; intros l Hl; [reflexivity|].
  destruct l as [|x l]; [reflexivity|].
  pose proof (IH l (adjacent_tail _ _ Hl)) as Hn.
  destruct l as [|y rest]; [now destruct n|].
  destruct n as [|n]; [reflexivity|].
  change (firstn (S (S n)) (x :: y :: rest))
    with (x :: y :: firstn n rest).
  change (firstn (S n) (y :: rest)) with (y :: firstn n rest) in Hn.
  rewrite adjacent_cons in Hl |- *.
  apply andb_true_iff in Hl as [Hxy _]. now rewrite Hxy.
Qed.

End SortedLemmas.

Lemma adjacent_strengthen {A} (r1 r2 : A -> A -> bool) (l : list A) :
  List.NoDup l ->
  (forall x y, x <> y -> r1 x y = true -> r2 x y = true) ->
  adjacent r1 l = true -> adjacent r2 l = true.
Proof.
  intros Hnd Himp. induction l as [|x l IH]; [reflexivity|].
  destruct l as [|y rest]; [reflexivity|].
  rewrite !adjacent_cons. intros H. apply andb_true_iff in H as [Hxy Hrest].
  inversion Hnd as [|? ? Hnot Hnd']; subst.
  rewrite (Himp x y); [|intros ->; apply Hnot; now left|exact Hxy].
  now apply IH.
Qed.

Lemma leb_total_false (x y : string) :
  String.leb x y = false -> String.leb y x = true.
Proof.
  intros H. destruct (String.leb_total x y) as [H'|H']; congruence.
Qed.

Lemma leb_distinct_ltb (x y : string) :
  x <> y -> String.leb x y = true -> String.ltb x y = true.
Proof.
  unfold String.leb, String.ltb. intros Hne.
  destruct (String.compare x y) eqn:Hc; try reflexivity; try discriminate.
  apply String.compare_eq_iff in Hc. contradiction.
Qed.

(** ** Technology stack and key modules *)

(** X18. [_extract_tech_stack] returns the top-level packages of the
    import entities, each once, in strictly ascending order: a name is in
    the list exactly when it is the part before the first dot of the name
    of some entity of type ['import']; other entities contribute
    nothing. *)
Theorem tech_stack_is_sorted_and_distinct (entities : list Entity) :
  adjacent String.ltb (_extract_tech_stack entities) = true
  /\ List.NoDup (_extract_tech_stack entities)
  /\ forall pkg,
       In pkg (_extract_tech_stack entities) <->
       exists entity,
         In entity entities
         /\ entity !! "type" = Some "import"
         /\ pkg = before_dot (entity_name entity).
Proof.
  unfold _extract_tech_stack.
  set (names := List.map (fun entity => before_dot (entity_name entity))
                         (List.filter is_import entities)).
  assert (Hnd : List.NoDup (sorted String.leb (nodup String.string_dec names))).
  { apply (Permutation_NoDup (Permutation_sym (sorted_Permutation _ _))).
    apply NoDup_nodup. }
  split; [|split; [exact Hnd|]].
  - apply (adjacent_strengthen String.leb); [exact Hnd| |].
    + intros x y. apply leb_distinct_ltb.
    + apply sorted_adjacent. apply leb_total_false.
  - intros pkg. split.
    + intros H. apply (Permutation_in _ (sorted_Permutation _ _)) in H.
      apply nodup_In in H. unfold names in H.
      apply in_map_iff in H as (entity & <- & Hin).
      apply filter_In in Hin as [Hin Himp].
      exists entity. split; [exact Hin|]. split; [|reflexivity].
      unfold is_import in Himp. destruct (entity !! "type") as [ty|];
        [|discriminate]. apply String.eqb_eq in Himp. now subst.
    + intros (entity & Hin & Hty & ->).
      apply (Permutation_in _ (Permutation_sym (sorted_Permutation _ _))).
      apply nodup_In. unfold names.
      apply (in_map (fun entity => before_dot (entity_name entity))).
      apply filter_In.
      split; [exact Hin|]. unfold is_import. now rewrite Hty.
Qed.

Lemma option_string_eqb_spec (a b : option string) :
  option_string_eqb a b = true <-> a = b.
Proof.
  destruct a as [x|], b as [y|]; simpl; split; intros H;
    try discriminate H; try reflexivity.
  - apply String.eqb_eq in H. now subst.
  - injection H as ->. apply String.eqb_refl.
Qed.

Lemma counter_fold_spec {K} (key_eqb : K -> K -> bool)
  (Hspec : forall a b, key_eqb a b = true <-> a = b) (xs : list K) :
  forall counts,
    List.NoDup (List.map fst counts) ->
    let c := fold_left (fun counts k => count_key key_eqb k counts) xs counts in
    List.NoDup (List.map fst c)
    /\ (forall k, counter_get key_eqb c k
                  = (counter_get key_eqb counts k
                     + length (List.filter (fun x => key_eqb x k) xs))%nat)
    /\ (forall k, In k (List.map fst c)
                  <-> In k (List.map fst counts) \/ In k xs).
Proof.
  induction xs as [|x xs IH]; intros counts Hnd; simpl.
  - split; [exact Hnd|]. split; [intros; lia|intros; tauto].
  - destruct (IH (count_key key_eqb x counts)) as (H1 & H2 & H3).
    { now apply count_key_NoDup. }
    split; [exact H1|]. split.
    + intros k. rewrite H2, (count_key_get _ Hspec).
      destruct (key_eqb x k); simpl; lia.
    + intros k. rewrite H3, (count_key_keys _ Hspec). intuition.
Qed.

Lemma NoDup_firstn {A} (n : nat) (l : list A) :
  List.NoDup l -> List.NoDup (firstn n l).
Proof.
  intros H. rewrite <- (firstn_skipn n l) in H.
  now apply NoDup_app_remove_r in H.
Qed.

Lemma In_firstn {A} (n : nat) (l : list A) (x : A) :
  In x (firstn n l) -> In x l.
Proof.
  intros H. rewrite <- (firstn_skipn n l). apply in_or_app. now left.
Qed.

(** X19. [_identify_key_modules] reports at most ten modules, each once,
    in order of non-increasing importance, and the importance reported
    for a module is the number of times its name is the ['from'] or the
    ['to'] of a relationship (at least one). *)
Theorem key_modules_are_ranked_endpoints (relationships : list Relationship) :
  let top := _identify_key_modules relationships in
  (length top <= 10)%nat
  /\ adjacent (fun a b => (snd b <=? snd a)%nat) top = true
  /\ List.NoDup (List.map fst top)
  /\ Forall (fun kv => snd kv = endpoint_count (fst kv) relationships
                       /\ (1 <= snd kv)%nat
                       /\ In (fst kv) (endpoints relationships)) top.
Proof.
  unfold _identify_key_modules. cbv zeta.
  destruct (counter_fold_spec option_string_eqb option_string_eqb_spec
              (endpoints relationships) [] (List.NoDup_nil _))
    as (Hnd & Hget & Hkeys).
  set (c := fold_left (fun counts k => count_key option_string_eqb k counts)
                      (endpoints relationships) []) in *.
  set (ranked := sorted (fun a b => (snd b <=? snd a)%nat) c).
  assert (Hperm : Permutation ranked c) by apply sorted_Permutation.
  split; [apply firstn_le_length|].
  split.
  { apply firstn_adjacent, sorted_adjacent.
    intros x y H. apply Nat.leb_gt in H. apply Nat.leb_le. lia. }
  split.
  { rewrite <- firstn_map. apply NoDup_firstn.
    apply (Permutation_NoDup (Permutation_sym (Permutation_map fst Hperm))).
    exact Hnd. }
  apply List.Forall_forall. intros [k n] Hin. simpl.
  apply In_firstn in Hin. apply (Permutation_in _ Hperm) in Hin.
  assert (Hk : In k (endpoints relationships)).
  { destruct (proj1 (Hkeys k) (in_map fst _ _ Hin)) as [[]|H]. exact H. }
  assert (Hn : n = endpoint_count k relationships).
  { rewrite <- (counter_get_in _ option_string_eqb_spec c k n Hnd Hin).
    rewrite Hget. reflexivity. }
  split; [exact Hn|]. split; [|exact Hk].
  rewrite Hn. unfold endpoint_count.
  assert (Hf : In k (List.filter (fun e => option_string_eqb e k)
                                 (endpoints relationships))).
  { apply filter_In. split; [exact Hk|]. now apply option_string_eqb_spec. }
  destruct (List.filter _ (endpoints relationships)); [contradiction|].
  simpl. lia.
Qed.

(** ** Framework detection *)

Section FrameworkLemmas.

Variable str_lower : string -> string.

Lemma first_indicator_some (name : string) (table : list (string * string))
  (fw : string) :
  first_indicator name table = Some fw ->
  exists indicator, In (indicator, fw) table /\ contains indicator name = true.
Proof.
  induction table as [|[ind f] rest IH]; simpl; [discriminate|].
  destruct (contains ind name) eqn:Hc.
  - intros [= <-]. eauto.
  - intros H. destruct (IH H) as (i & Hi & Hci). eauto.
Qed.

Lemma first_indicator_none (name : string) (table : list (string * string)) :
  first_indicator name table = None <->
  Forall (fun kv => contains (fst kv) name = false) table.
Proof.
  induction table as [|[ind f] rest IH]; simpl.
  - split; auto.
  - destruct (contains ind name) eqn:Hc; split.
    + discriminate.
    + intros H. inversion H; subst. simpl in *. congruence.
    + intros H. constructor; [exact Hc|]. now apply IH.
    + intros H. inversion H; subst. now apply IH.
Qed.

(** X20. [_detect_framework] looks at import entities only, compares
    lower-cased names by substring, and stops at the first import that
    names a framework: the answer is that of the list restricted to its
    import entities; it is [None] exactly when no import entity's
    lower-cased name contains an indicator; an answer found for a graph
    is kept when entities are appended to it; and the framework returned
    is the table entry of an indicator contained in the name of some
    import entity. *)
Theorem framework_comes_from_the_first_matching_import
  (entities : list Entity) :
  _detect_framework str_lower entities
  = _detect_framework str_lower (List.filter is_import entities)
  /\ (_detect_framework str_lower entities = None <->
      Forall (fun entity =>
                is_import entity = true ->
                Forall (fun kv =>
                          contains (fst kv) (str_lower (entity_name entity))
                          = false) framework_indicators)
             entities)
  /\ (forall fw more,
        _detect_framework str_lower entities = Some fw ->
        _detect_framework str_lower (entities ++ more) = Some fw)
  /\ (forall fw,
        _detect_framework str_lower entities = Some fw ->
        exists entity indicator,
          In entity entities
          /\ entity !! "type" = Some "import"
          /\ In (indicator, fw) framework_indicators
          /\ contains indicator (str_lower (entity_name entity)) = true).
Proof.
  split; [|split; [|split]].
  - induction entities as [|e rest IH]; [reflexivity|].
    cbn [_detect_framework List.filter].
    destruct (is_import e) eqn:He; [|exact IH].
    cbn [_detect_framework]. rewrite He.
    destruct (first_indicator _ framework_indicators); [reflexivity|exact IH].
  - induction entities as [|e rest IH]; cbn [_detect_framework].
    + split; [constructor|reflexivity].
    + destruct (is_import e) eqn:He.
      * destruct (first_indicator (str_lower (entity_name e))
                                  framework_indicators) eqn:Hf; split.
        -- discriminate.
        -- intros H. inversion H as [|? ? Hhd _]; subst.
           specialize (Hhd He). apply first_indicator_none in Hhd.
           congruence.
        -- intros H. constructor; [|now apply IH].
           intros _. now apply first_indicator_none.
        -- intros H. inversion H; subst. now apply IH.
      * split.
        -- intros H. constructor; [congruence|now apply IH].
        -- intros H. inversion H; subst. now apply IH.
  - intros fw more. induction entities as [|e rest IH];
      cbn [_detect_framework app]; [discriminate|].
    destruct (is_import e); [|exact IH].
    destruct (first_indicator _ framework_indicators); [auto|exact IH].
  - intros fw. induction entities as [|e rest IH];
      cbn [_detect_framework]; [discriminate|].
    assert (Hrest : _detect_framework str_lower rest = Some fw ->
              exists entity indicator,
                In entity (e :: rest)
                /\ entity !! "type" = Some "import"
                /\ In (indicator, fw) framework_indicators
                /\ contains indicator (str_lower (entity_name entity)) = true).
    { intros H. destruct (IH H) as (x & i & Hx & Hrest).
      exists x, i. split; [now right|exact Hrest]. }
    destruct (is_import e) eqn:He; [|exact Hrest].
    destruct (first_indicator (str_lower (entity_name e))
                              framework_indicators) eqn:Hf; [|exact Hrest].
    intros [= ->]. apply first_indicator_some in Hf as (i & Hi & Hc).
    exists e, i. split; [now left|]. split; [|split; assumption].
    unfold is_import in He. destruct (e !! "type") as [ty|]; [|discriminate].
    apply String.eqb_eq in He. now subst.
Qed.

End FrameworkLemmas.

(** ** The notebook converter *)

Lemma rfind_bound (c : ascii) (s : string) (i : nat) :
  PyStr.rfind c s = Some i -> (i < String.length s)%nat.
Proof.
  revert i. induction s as [|a s IH]; simpl; intros i H; [discriminate|].
  destruct (PyStr.rfind c s) as [j|].
  - injection H as <-. specialize (IH j eq_refl). lia.
  - destruct (Ascii.eqb a c); [|discriminate]. injection H as <-. lia.
Qed.

Lemma substring_length (s : string) :
  forall n m, (n + m <= String.length s)%nat ->
    String.length (substring n m s) = m.
Proof.
  induction s as [|a s IH]; intros [|n] [|m] H; simpl in *;
    try reflexivity; try lia.
  - f_equal. apply (IH 0%nat m). lia.
  - apply (IH n 0%nat). lia.
  - apply (IH n (S m)). lia.
Qed.

Lemma stem_nonempty (nm : string) :
  nm <> "" -> Converter.stem_of_name nm <> "".
Proof.
  intros Hnm. unfold Converter.stem_of_name.
  destruct (PyStr.rfind "." nm) as [i|]; [|exact Hnm].
  destruct (Nat.ltb_spec 0 i); simpl; [|exact Hnm].
  destruct (i <? String.length nm - 1)%nat; [|exact Hnm].
  destruct nm as [|a nm]; [congruence|].
  destruct i as [|i]; [lia|]. simpl. discriminate.
Qed.

(** The new name that [with_suffix] computes is the stem followed by the
    suffix. *)
Lemma with_suffix_name (nm sfx : string) :
  (if String.eqb (PyPath.suffix_of_name nm) "" then nm +:+ sfx
   else substring 0 (String.length nm
                     - String.length (PyPath.suffix_of_name nm)) nm +:+ sfx)
  = Converter.stem_of_name nm +:+ sfx.
Proof.
  unfold PyPath.suffix_of_name, Converter.stem_of_name.
  destruct (PyStr.rfind "." nm) as [i|] eqn:Hr; [|reflexivity].
  apply rfind_bound in Hr.
  destruct (Nat.ltb_spec 0 i); simpl; [|reflexivity].
  destruct (Nat.ltb_spec i (String.length nm - 1)); simpl; [|reflexivity].
  assert (Hlen : String.length (substring i (String.length nm - i) nm)
                 = (String.length nm - i)%nat)
    by (apply substring_length; lia).
  destruct (String.eqb_spec (substring i (String.length nm - i) nm) "")
    as [He|_].
  - rewrite He in Hlen. simpl in Hlen. lia.
  - rewrite Hlen. f_equal. f_equal. lia.
Qed.

Lemma stem_py_suffix (nm : string) :
  nm <> "" ->
  PyPath.suffix_of_name (Converter.stem_of_name nm +:+ ".py") = ".py".
Proof.
  intros Hnm. apply (suffix_of_name_ending _ "py").
  - now apply stem_nonempty.
  - discriminate.
  - reflexivity.
Qed.

Ltac handled :=
  simpl; try reflexivity;
  match goal with
  | |- context [String.eqb ?a "CalledProcessError"] =>
      destruct (String.eqb a "CalledProcessError"); reflexivity
  end.

Section ConverterLemmas.

Variable fs : list node.
Variable mkdir : Path -> option exn.
Variable nbconvert : Path -> Path -> option exn.
Variable not_relative_text : Path -> Path -> string.
Variable empty_name_text : Path -> string.

Abbreviation convert := (Converter.convert_single_notebook mkdir nbconvert
                           not_relative_text empty_name_text).
Abbreviation attempt := (Converter.attempt mkdir nbconvert
                           not_relative_text empty_name_text).

Lemma with_suffix_run (p : Path) (sfx : string) :
  Converter.with_suffix empty_name_text p sfx
  = if String.eqb (PyPath.name p) ""
    then Raise (Exn "ValueError" (empty_name_text p))
    else Ret (removelast p ++ [Converter.stem p +:+ sfx]).
Proof.
  unfold Converter.with_suffix, Converter.stem, PyPath.suffix.
  destruct (String.eqb (PyPath.name p) ""); [reflexivity|].
  now rewrite with_suffix_name.
Qed.

Lemma convert_run (nb : Path) (self : Converter.State) :
  convert nb self
  = match attempt self nb with
    | Ret p =>
        (Ret (Some p),
         Converter.append_log
           {| Converter.log_notebook := PyPath.str nb;
              Converter.log_python_file := Some (PyPath.str p);
              Converter.log_status := "success";
              Converter.log_error := None |} self)
    | Raise e =>
        (Ret None,
         Converter.append_log
           {| Converter.log_notebook := PyPath.str nb;
              Converter.log_python_file := None;
              Converter.log_status :=
                if String.eqb (exn_class e) "CalledProcessError"
                then "failed" else "error";
              Converter.log_error := Some (exn_str e) |} self)
    end.
Proof.
  unfold Converter.convert_single_notebook, Converter.attempt, try_except,
    bind, get, call, ret, modify, Converter.run, raise, Converter.relative_to.
  destruct (Converter.preserve_structure self).
  - destruct (Converter.strip_prefix _ nb) as [rel|].
    + rewrite with_suffix_run.
      destruct (String.eqb (PyPath.name rel) "").
      * handled.
      * destruct (mkdir _) as [e|];
          [handled|].
        destruct (nbconvert _ nb) as [e|];
          [handled|].
        reflexivity.
    + handled.
  - destruct (mkdir _) as [e|];
      [handled|].
    destruct (nbconvert _ nb) as [e|];
      [handled|].
    reflexivity.
Qed.

Lemma name_of_parts (a b : Path) (x : string) :
  PyPath.name (a ++ b ++ [x]) = x.
Proof. unfold PyPath.name. rewrite app_assoc. apply last_last. Qed.

Lemma strip_prefix_app (a b : Path) : Converter.strip_prefix a (a ++ b) = Some b.
Proof.
  induction a as [|x a IH]; simpl; [reflexivity|].
  now rewrite String.eqb_refl.
Qed.

Lemma attempt_run (nb : Path) (self : Converter.State) :
  attempt self nb
  = match Converter.output_path_for not_relative_text empty_name_text
            self nb with
    | Raise e => Raise e
    | Ret p =>
        match mkdir (parent p) with
        | Some e => Raise e
        | None =>
            match nbconvert p nb with
            | Some e => Raise e
            | None => Ret p
            end
        end
    end.
Proof.
  unfold Converter.attempt, Converter.output_path_for, Converter.relative_to.
  destruct (Converter.preserve_structure self); [|reflexivity].
  destruct (Converter.strip_prefix _ nb) as [rel|]; [|reflexivity].
  rewrite with_suffix_run.
  destruct (String.eqb (PyPath.name rel) ""); reflexivity.
Qed.

Lemma output_path_outside (nb : Path) (self : Converter.State) :
  Converter.preserve_structure self = true ->
  Converter.strip_prefix (Converter.notebook_dir self) nb = None ->
  Converter.output_path_for not_relative_text empty_name_text self nb
  = Raise (Exn "ValueError"
               (not_relative_text nb (Converter.notebook_dir self))).
Proof.
  unfold Converter.output_path_for, Converter.relative_to.
  now intros -> ->.
Qed.

(** X21. [convert_single_notebook] never raises and appends exactly one
    entry for the notebook to [conversion_log], changing nothing else.
    It returns a path exactly when the output path could be computed,
    its directory was created and the command succeeded for it; the path
    returned is that output path and the entry has status ['success'] and
    names it.  When one of the three steps raises, it returns [None] and
    the entry has no Python file, carries the text of the exception that
    was raised, and has status ['failed'] for a [CalledProcessError] and
    ['error'] for any other exception; [None] is returned in no other
    case.  In particular a notebook that is not below [notebook_dir] is
    logged as ['error'] with the text of the [ValueError] of
    [relative_to]. *)
Theorem convert_single_notebook_logs_once
  (nb : Path) (self : Converter.State) :
  let planned :=
    Converter.output_path_for not_relative_text empty_name_text self nb in
  let raised := fun e =>
    planned = Raise e
    \/ exists p,
         planned = Ret p
         /\ (mkdir (parent p) = Some e
             \/ (mkdir (parent p) = None /\ nbconvert p nb = Some e)) in
  exists r entry,
    convert nb self = (Ret r, Converter.append_log entry self)
    /\ Converter.log_notebook entry = PyPath.str nb
    /\ (forall p,
          r = Some p <->
          planned = Ret p /\ mkdir (parent p) = None /\ nbconvert p nb = None)
    /\ (forall p,
          r = Some p ->
          Converter.log_status entry = "success"
          /\ Converter.log_python_file entry = Some (PyPath.str p)
          /\ Converter.log_error entry = None)
    /\ (forall e,
          raised e ->
          r = None
          /\ Converter.log_python_file entry = None
          /\ Converter.log_error entry = Some (exn_str e)
          /\ Converter.log_status entry
             = if String.eqb (exn_class e) "CalledProcessError"
               then "failed" else "error")
    /\ (r = None -> exists e, raised e)
    /\ (Converter.preserve_structure self = true ->
        Converter.strip_prefix (Converter.notebook_dir self) nb = None ->
        r = None
        /\ Converter.log_status entry = "error"
        /\ Converter.log_error entry
           = Some (not_relative_text nb (Converter.notebook_dir self))).
Proof.
  intros planned raised. rewrite convert_run, attempt_run. fold planned.
  pose proof (output_path_outside nb self) as Hout. fold planned in Hout.
  unfold raised. clear raised.
  destruct planned as [p|e] eqn:Hp.
  - destruct (mkdir (parent p)) as [e|] eqn:Hm;
      [|destruct (nbconvert p nb) as [e|] eqn:Hn].
    + eexists _, _. split; [reflexivity|]. split; [reflexivity|]. simpl.
      split; [|split; [|split; [|split]]].
      * intros q. split; [discriminate|].
        intros (Hq & Hq' & _). injection Hq as <-. congruence.
      * discriminate.
      * intros e' [H|(q & Hq & [H|[H _]])]; try discriminate.
        -- injection Hq as <-. rewrite Hm in H. injection H as <-.
           repeat split.
        -- injection Hq as <-. congruence.
      * intros _. exists e. right. exists p. auto.
      * intros H1 H2. discriminate (Hout H1 H2).
    + eexists _, _. split; [reflexivity|]. split; [reflexivity|]. simpl.
      split; [|split; [|split; [|split]]].
      * intros q. split; [discriminate|].
        intros (Hq & _ & Hq'). injection Hq as <-. congruence.
      * discriminate.
      * intros e' [H|(q & Hq & [H|[_ H]])]; try discriminate.
        -- injection Hq as <-. congruence.
        -- injection Hq as <-. rewrite Hn in H. injection H as <-.
           repeat split.
      * intros _. exists e. right. exists p. auto.
      * intros H1 H2. discriminate (Hout H1 H2).
    + eexists _, _. split; [reflexivity|]. split; [reflexivity|]. simpl.
      split; [|split; [|split; [|split]]].
      * intros q. split.
        -- intros H. injection H as <-. auto.
        -- intros (Hq & _). now injection Hq as <-.
      * intros q H. injection H as <-. auto.
      * intros e' [H|(q & Hq & [H|[_ H]])]; try discriminate;
          injection Hq as <-; congruence.
      * discriminate.
      * intros H1 H2. discriminate (Hout H1 H2).
  - eexists _, _. split; [reflexivity|]. split; [reflexivity|]. simpl.
    split; [|split; [|split; [|split]]].
    + intros q. split; [discriminate|]. intros (Hq & _). discriminate.
    + discriminate.
    + intros e' [H|(q & Hq & _)]; [|discriminate].
      injection H as <-. repeat split.
    + intros _. exists e. now left.
    + intros H1 H2. pose proof (Hout H1 H2) as H. injection H as ->.
      repeat split.
Qed.

(** X22. A converted notebook is a Python file below the output
    directory: whenever [convert_single_notebook] returns a path (with
    [preserve_structure], or for a notebook with a non-empty name), the
    path is below [output_dir], its suffix is [.py] and
    [PythonProcessor] accepts it.  For the converter that
    [JupyterProcessor] builds and a notebook path relative to the
    working directory, it is the notebook's own path below the temporary
    directory, with the stem of the notebook followed by [.py] as its
    name. *)
Theorem converted_notebook_is_a_python_file
  (nb p : Path) (self : Converter.State) :
  fst (convert nb self) = Ret (Some p) ->
  Converter.preserve_structure self = true \/ PyPath.name nb <> "" ->
  PyPath.suffix p = ".py"
  /\ can_process PythonProcessor p = true
  /\ (exists below, Converter.strip_prefix (Converter.output_dir self) p
                    = Some below)
  /\ (Converter.preserve_structure self = true ->
      Converter.notebook_dir self = [] ->
      p = Converter.output_dir self
          ++ removelast nb ++ [Converter.stem nb +:+ ".py"]).
Proof.
  rewrite convert_run. intros Hp Hname.
  destruct (attempt self nb) as [q|e] eqn:Ha; [|discriminate Hp].
  simpl in Hp. injection Hp as ->.
  unfold Converter.attempt in Ha.
  assert (Hshape :
    exists rel,
      p = Converter.output_dir self
          ++ removelast rel ++ [Converter.stem rel +:+ ".py"]
      /\ PyPath.name rel <> ""
      /\ (Converter.preserve_structure self = true ->
          Converter.notebook_dir self = [] -> rel = nb)).
  { destruct (Converter.preserve_structure self) eqn:Hps.
    - destruct (Converter.strip_prefix _ nb) as [rel|] eqn:Hrel;
        [|discriminate].
      destruct (String.eqb_spec (PyPath.name rel) "") as [|Hne];
        [discriminate|].
      destruct (mkdir _); [discriminate|].
      destruct (nbconvert _ nb); [discriminate|].
      injection Ha as <-. exists rel. split; [reflexivity|].
      split; [exact Hne|]. intros _ Hdir. rewrite Hdir in Hrel.
      simpl in Hrel. congruence.
    - destruct Hname as [Hps'|Hname]; [discriminate|].
      destruct (mkdir _); [discriminate|].
      destruct (nbconvert _ nb); [discriminate|].
      injection Ha as <-. exists [PyPath.name nb].
      split; [reflexivity|]. split; [exact Hname|]. discriminate. }
  destruct Hshape as (rel & -> & Hne & Hjup).
  assert (Hs : PyPath.suffix (Converter.output_dir self ++ removelast rel
                              ++ [Converter.stem rel +:+ ".py"]) = ".py").
  { unfold PyPath.suffix. rewrite name_of_parts.
    now apply stem_py_suffix. }
  split; [exact Hs|]. split.
  - simpl. rewrite Hs. reflexivity.
  - split; [eexists; apply strip_prefix_app|].
    intros H1 H2. now rewrite (Hjup H1 H2).
Qed.

Lemma convert_each_run (notebooks converted_files : list Path)
  (self : Converter.State) :
  exists converted added,
    Converter.convert_each mkdir nbconvert not_relative_text empty_name_text
      notebooks converted_files self
    = (Ret (converted_files ++ converted),
       {| Converter.notebook_dir := Converter.notebook_dir self;
          Converter.output_dir := Converter.output_dir self;
          Converter.preserve_structure := Converter.preserve_structure self;
          Converter.conversion_log := Converter.conversion_log self ++ added |})
    /\ map Converter.log_notebook added = map PyPath.str notebooks
    /\ map Converter.log_python_file (Converter.successes added)
       = map (fun p => Some (PyPath.str p)) converted
    /\ List.Forall (fun p => exists nb, In nb notebooks
                                       /\ attempt self nb = Ret p) converted.
Proof.
  revert converted_files self.
  induction notebooks as [|nb rest IH]; intros acc self.
  - exists [], []. simpl. rewrite !app_nil_r. destruct self.
    repeat split; constructor.
  - simpl. unfold bind at 1. rewrite convert_run.
    assert (Hsame : forall entry p,
              attempt (Converter.append_log entry self) p = attempt self p)
      by reflexivity.
    destruct (attempt self nb) as [p|e] eqn:Ha.
    + destruct (IH (acc ++ [p]) (Converter.append_log
         {| Converter.log_notebook := PyPath.str nb;
            Converter.log_python_file := Some (PyPath.str p);
            Converter.log_status := "success";
            Converter.log_error := None |} self))
        as (converted & added & Hrun & Hnb & Hpy & Hall).
      unfold Converter.successes in *.
      eexists (p :: converted), (_ :: added).
      rewrite Hrun. simpl. rewrite <- !app_assoc. simpl.
      split; [reflexivity|]. split; [now rewrite Hnb|].
      split; [rewrite <- Hpy; reflexivity|].
      constructor; [exists nb; auto|].
      eapply List.Forall_impl; [|exact Hall]. simpl.
      intros q (nb' & Hin & Hq). exists nb'. auto.
    + destruct (IH acc (Converter.append_log
         {| Converter.log_notebook := PyPath.str nb;
            Converter.log_python_file := None;
            Converter.log_status :=
              if String.eqb (exn_class e) "CalledProcessError"
              then "failed" else "error";
            Converter.log_error := Some (exn_str e) |} self))
        as (converted & added & Hrun & Hnb & Hpy & Hall).
      unfold Converter.successes in *.
      eexists converted, (_ :: added).
      rewrite Hrun. simpl. rewrite <- !app_assoc. simpl.
      split; [reflexivity|]. split; [now rewrite Hnb|].
      split.
      * destruct (String.eqb (exn_class e) "CalledProcessError");
          simpl; exact Hpy.
      * eapply List.Forall_impl; [|exact Hall]. simpl.
        intros q (nb' & Hin & Hq). exists nb'. auto.
Qed.

(** X23. [convert_all] never raises and accounts for every notebook it
    finds: it appends to [conversion_log] one entry per notebook of
    [find_all_notebooks], in that order, and changes no other attribute;
    the list it returns holds exactly the Python files of the entries with
    status ['success'], in the same order, and each of them is the file
    the command wrote for one of the notebooks found. *)
Theorem convert_all_accounts_for_every_notebook (self : Converter.State) :
  exists converted added,
    Converter.convert_all fs mkdir nbconvert not_relative_text
      empty_name_text self
    = (Ret converted,
       {| Converter.notebook_dir := Converter.notebook_dir self;
          Converter.output_dir := Converter.output_dir self;
          Converter.preserve_structure := Converter.preserve_structure self;
          Converter.conversion_log := Converter.conversion_log self ++ added |})
    /\ map Converter.log_notebook added
       = map PyPath.str (Converter.find_all_notebooks fs self)
    /\ map Converter.log_python_file (Converter.successes added)
       = map (fun p => Some (PyPath.str p)) converted
    /\ length converted = length (Converter.successes added)
    /\ length added = length (Converter.find_all_notebooks fs self)
    /\ forall p, In p converted ->
         exists nb, In nb (Converter.find_all_notebooks fs self)
                    /\ nbconvert p nb = None.
Proof.
  destruct (convert_each_run (Converter.find_all_notebooks fs self) [] self)
    as (converted & added & Hrun & Hnb & Hpy & Hall).
  exists converted, added.
  split; [exact Hrun|]. split; [exact Hnb|]. split; [exact Hpy|].
  split; [|split].
  - rewrite <- (length_map (fun p => Some (PyPath.str p)) converted),
      <- Hpy. now rewrite length_map.
  - rewrite <- (length_map Converter.log_notebook added), Hnb.
    now rewrite length_map.
  - intros p Hin.
    destruct (proj1 (List.Forall_forall _ _) Hall p Hin) as (nb & Hnbin & Ha).
    exists nb. split; [exact Hnbin|].
    unfold Converter.attempt in Ha.
    destruct (if Converter.preserve_structure self then _ else _)
      as [q|]; [|discriminate].
    destruct (mkdir (parent q)); [discriminate|].
    destruct (nbconvert q nb) eqn:Hn; [discriminate|].
    injection Ha as <-. exact Hn.
Qed.

End ConverterLemmas.

Lemma converted_notebook_is_a_python_file_witness :
  fst (Converter.convert_single_notebook
         (fun _ => None) failing_on_b
         (fun _ _ => "not in the subpath") (fun _ => "has an empty name")
         ["nb"; "a.ipynb"] (Converter.for_jupyter ["tmp"]))
  = Ret (Some ["tmp"; "nb"; "a.py"])
  /\ PyPath.suffix ["tmp"; "nb"; "a.py"] = ".py"
  /\ can_process PythonProcessor ["tmp"; "nb"; "a.py"] = true.
Proof.
  assert (H : fst (Converter.convert_single_notebook
                     (fun _ => None) failing_on_b
                     (fun _ _ => "not in the subpath")
                     (fun _ => "has an empty name")
                     ["nb"; "a.ipynb"] (Converter.for_jupyter ["tmp"]))
              = Ret (Some ["tmp"; "nb"; "a.py"]))
    by (vm_compute; reflexivity).
  split; [exact H|].
  destruct (converted_notebook_is_a_python_file _ _ _ _ _ _ _ H
              (or_introl eq_refl)) as (Hs & Hc & _).
  split; assumption.
Defined.

Lemma contains_prefix (n h : string) :
  String.prefix n h = true -> contains n h = true.
Proof. intros H. destruct h; cbn [contains]; rewrite H; reflexivity. Qed.

Lemma prefix_extend (n m b : string) :
  String.prefix n m = true -> String.prefix n (m +:+ b) = true.
Proof.
  revert m. induction n as [|c n IH]; intros m H.
  - destruct (m +:+ b); reflexivity.
  - destruct m as [|d m]; [discriminate H|].
    rewrite append_cons. simpl in *.
    destruct (ascii_dec c d); [auto|discriminate H].
Qed.

Lemma contains_extend (n m b : string) :
  contains n m = true -> contains n (m +:+ b) = true.
Proof.
  induction m as [|d m IH]; intros H.
  - apply contains_prefix, prefix_extend.
    cbn [contains] in H. now rewrite orb_false_r in H.
  - cbn [contains] in H. apply orb_true_iff in H as [H|H].
    + now apply contains_prefix, prefix_extend.
    + rewrite append_cons. cbn [contains]. rewrite (IH H).
      apply orb_true_r.
Qed.

Lemma contains_inside (n a m b : string) :
  contains n m = true -> contains n (a +:+ m +:+ b) = true.
Proof.
  intros H. induction a as [|c a IH].
  - change (contains n (m +:+ b) = true). now apply contains_extend.
  - rewrite append_cons. cbn [contains]. rewrite IH. apply orb_true_r.
Qed.

Lemma concat_in (sep part : string) (parts : list string) :
  In part parts ->
  exists a b, String.concat sep parts = a +:+ part +:+ b.
Proof.
  induction parts as [|x rest IH]; intros Hin; [destruct Hin|].
  destruct rest as [|y rest].
  - destruct Hin as [->|[]]. exists "", "". simpl.
    change ("" +:+ part +:+ "") with (part +:+ "").
    clear. induction part as [|c p IH]; [reflexivity|].
    rewrite append_cons. now rewrite <- IH.
  - change (String.concat sep (x :: y :: rest))
      with (x +:+ sep +:+ String.concat sep (y :: rest)).
    destruct Hin as [->|Hin].
    + exists "", (sep +:+ String.concat sep (y :: rest)). reflexivity.
    + destruct (IH Hin) as (a & b & ->).
      exists (x +:+ sep +:+ a), b.
      clear. induction x as [|c x IHx].
      * change ("" +:+ ?s) with s. cbv beta.
        induction sep as [|c s IHs]; [reflexivity|].
        rewrite !append_cons. now rewrite IHs.
      * rewrite !append_cons. now rewrite IHx.
Qed.

(** X24. [find_all_notebooks] returns notebooks of the recursive walk
    for [*.ipynb] below [notebook_dir], and never one with
    [.ipynb_checkpoints] anywhere in a segment of its path: nothing below
    a checkpoint directory is converted, and neither is a notebook whose
    own name, or one of whose directories (those of [notebook_dir]
    included), contains that text. *)
Theorem find_all_notebooks_skips_checkpoints
  (fs : list node) (self : Converter.State) (nb : Path) :
  In nb (Converter.find_all_notebooks fs self) ->
  In nb (FS.rglob fs (Converter.notebook_dir self) (FS.star ".ipynb"))
  /\ forall part, In part nb -> contains ".ipynb_checkpoints" part = false.
Proof.
  unfold Converter.find_all_notebooks. intros Hin.
  apply List.filter_In in Hin as [Hwalk Hkeep].
  split; [exact Hwalk|]. intros part Hpart.
  destruct (contains ".ipynb_checkpoints" part) eqn:Hc; [|reflexivity].
  apply negb_true_iff in Hkeep.
  destruct nb as [|x nb]; [destruct Hpart|].
  destruct (concat_in "/" part (x :: nb) Hpart) as (a & b & Heq).
  unfold PyPath.str in Hkeep. rewrite Heq in Hkeep.
  rewrite (contains_inside _ a part b Hc) in Hkeep. discriminate.
Qed.

Lemma find_all_notebooks_skips_checkpoints_witness :
  In ["nb"; "sub"; "b.ipynb"]
     (Converter.find_all_notebooks notebook_tree (Converter.for_jupyter ["tmp"]))
  /\ In ["nb"; ".ipynb_checkpoints"; "a-checkpoint.ipynb"]
        (FS.rglob notebook_tree [] (FS.star ".ipynb"))
  /\ forall part, In part ["nb"; "sub"; "b.ipynb"] ->
                  contains ".ipynb_checkpoints" part = false.
Proof.
  assert (H : In ["nb"; "sub"; "b.ipynb"]
                (Converter.find_all_notebooks notebook_tree
                   (Converter.for_jupyter ["tmp"])))
    by (vm_compute; auto).
  split; [exact H|]. split; [vm_compute; auto|].
  exact (proj2 (find_all_notebooks_skips_checkpoints
                  notebook_tree (Converter.for_jupyter ["tmp"]) _ H)).
Defined.
